(** * google-scholar-tool: query building, citation formatting, result capping

    A shallow embedding of
    - [src/google_scholar_tool/scholar.py] ([build_query],
      [search_publications], [search_authors], [get_author_details]) and
    - [src/google_scholar_tool/books.py] (the [Book] dataclass and its
      citation methods),
    followed by the properties of the specification that concern them.

    Conventions.  A Python [str] is a [string]; a character is a code point
    below 256.  [Optional[T]] is [option T].  A call that may raise returns an
    [outcome].  Loosely typed dictionary payloads are [gmap string value]. *)

From Stdlib Require Import ZArith Ascii String List Bool Lia.
From stdpp Require Import base option list strings gmap.

Local Open Scope string_scope.
Local Open Scope list_scope.

(** ** Python runtime fragments *)

Module Py.

(** Exceptions: the class name and the message of an instance of
    [Exception]. *)
Record exn : Type := mkExn { exn_class : string; exn_msg : string }.

Definition ValueError (msg : string) : exn := mkExn "ValueError" msg.
Definition IndexError (msg : string) : exn := mkExn "IndexError" msg.

(** The result of evaluating an expression: a value, or a raised exception. *)
Inductive outcome (A : Type) : Type :=
| Ok (a : A)
| Raise (e : exn).
Arguments Ok {A} a.
Arguments Raise {A} e.

#[export] Instance outcome_ret : MRet outcome := fun _ a => Ok a.
#[export] Instance outcome_bind : MBind outcome := fun _ _ f m =>
  match m with
  | Ok a => f a
  | Raise e => Raise e
  end.

(** [for x in xs: acc = body(acc, x)] where the body may raise. *)
Fixpoint for_each {A S : Type} (body : S → A → outcome S) (xs : list A) (acc : S)
  : outcome S :=
  match xs with
  | [] => Ok acc
  | x :: xs' => acc' ← body acc x; for_each body xs' acc'
  end.

(** Dynamically typed payload values found in upstream responses. *)
#[warnings="-register-all"]
Inductive value : Type :=
| VNone
| VStr (s : string)
| VInt (z : Z)
| VList (l : list value).

(** [d.get(key, default)] *)
Definition dict_get (d : gmap string value) (key : string) (dflt : value) : value :=
  match d !! key with
  | Some v => v
  | None => dflt
  end.

(** The double quote character as a one-character string. *)
Definition dquote : string := String (ascii_of_nat 34) EmptyString.

(** Truthiness of an [Optional[str]]: [None] and the empty string are falsy. *)
Definition truthy_str (o : option string) : bool :=
  match o with
  | Some (String _ _) => true
  | _ => false
  end.

(** [x or default] on an [Optional[str]]. *)
Definition str_or (o : option string) (dflt : string) : string :=
  match o with
  | Some ((String _ _) as s) => s
  | _ => dflt
  end.

(** [sep.join(parts)] *)
Fixpoint join (sep : string) (parts : list string) : string :=
  match parts with
  | [] => ""
  | [p] => p
  | p :: rest => p +:+ sep +:+ join sep rest
  end.

(** [sub in s] *)
Fixpoint str_contains (sub s : string) : bool :=
  String.prefix sub s ||
  match s with
  | EmptyString => false
  | String _ s' => str_contains sub s'
  end.

(** [s.endswith(suffix)] *)
Fixpoint endswith (s suffix : string) : bool :=
  String.eqb s suffix ||
  match s with
  | EmptyString => false
  | String _ s' => endswith s' suffix
  end.

(** [s[:n]] for a non-negative [n]. *)
Definition str_take (n : nat) (s : string) : string := String.substring 0 n s.

(** [s[0]]: the first character, [IndexError] on the empty string. *)
Definition str_first (s : string) : outcome string :=
  match s with
  | EmptyString => Raise (IndexError "string index out of range")
  | String c _ => Ok (String c EmptyString)
  end.

(** [l[i]] for a non-negative [i]. *)
Definition list_get {A : Type} (l : list A) (i : nat) : outcome A :=
  match l !! i with
  | Some x => Ok x
  | None => Raise (IndexError "list index out of range")
  end.

(** [l[-1]] *)
Definition list_last {A : Type} (l : list A) : outcome A :=
  match last l with
  | Some x => Ok x
  | None => Raise (IndexError "list index out of range")
  end.

(** [l[:-1]] *)
Definition list_init {A : Type} (l : list A) : list A := removelast l.

(** [str.isspace] on one character, for code points below 256:
    TAB, LF, VT, FF, CR, FS, GS, RS, US, SPACE, NEL and NBSP. *)
Definition is_space (c : ascii) : bool :=
  let n := nat_of_ascii c in
  (((9 <=? n) && (n <=? 13)) || ((28 <=? n) && (n <=? 32))
   || (n =? 133) || (n =? 160))%nat.

(** [s.split()]: the maximal runs of non-whitespace characters, in order.
    [tok] is the run being read. *)
Fixpoint split_from (tok : string) (s : string) : list string :=
  match s with
  | EmptyString =>
      match tok with EmptyString => [] | _ => [tok] end
  | String c s' =>
      if is_space c then
        match tok with
        | EmptyString => split_from "" s'
        | _ => tok :: split_from "" s'
        end
      else split_from (tok +:+ String c EmptyString) s'
  end.

Definition split (s : string) : list string := split_from "" s.

(** [str.lower] on one character, for code points below 256: the ASCII
    capitals and the Latin-1 capitals (all of 192..222 except the
    multiplication sign 215) move up by 32. *)
Definition lower_char (c : ascii) : ascii :=
  let n := nat_of_ascii c in
  if (((65 <=? n) && (n <=? 90))
      || ((192 <=? n) && (n <=? 222) && negb (n =? 215)))%nat
  then ascii_of_nat (n + 32) else c.

(** [s.lower()] *)
Fixpoint lower (s : string) : string :=
  match s with
  | EmptyString => EmptyString
  | String c s' => String (lower_char c) (lower s')
  end.

End Py.
Import Py.

(** ** scholar.py: the query builder *)

(** [build_query(terms, exact_phrases=None, exclude_terms=None, intitle=None)].
    [query_parts] and [query] are the local variables of the source, threaded
    through its blocks; each [if x:] guard is the truthiness of [x]: a list
    that is present and non-empty, a string that is present and non-empty. *)
Definition build_query (terms : list string)
    (exact_phrases exclude_terms : option (list string))
    (intitle : option string) : string :=
  let query_parts : list string := [] in
  (* Handle main terms with OR *)
  let query_parts :=
    match terms with
    | [] => query_parts
    | [t] => query_parts ++ [t]
    | _ => let or_terms := join " OR " terms in
           query_parts ++ ["(" +:+ or_terms +:+ ")"]
    end in
  (* Handle exact phrases *)
  let query_parts :=
    match exact_phrases with
    | Some ((_ :: _) as phrases) =>
        fold_left (fun parts phrase =>
                     if str_contains " " phrase
                     then parts ++ [dquote +:+ phrase +:+ dquote]
                     else parts ++ [phrase])
                  phrases query_parts
    | _ => query_parts
    end in
  (* Combine with AND *)
  let query :=
    if (1 <? length query_parts)%nat then join " AND " query_parts
    else join "" query_parts in
  (* Add intitle constraint *)
  let query :=
    match intitle with
    | Some ((String _ _) as t) => query +:+ " intitle:" +:+ dquote +:+ t +:+ dquote
    | _ => query
    end in
  (* Add exclusions *)
  let query :=
    match exclude_terms with
    | Some ((_ :: _) as excl) =>
        fold_left (fun q term => q +:+ " -" +:+ term) excl query
    | _ => query
    end in
  query.

(** ** scholar.py: records *)

Module Publication.
Record t : Type := mk {
  title : value;
  authors : value;
  year : value;
  abstract : value;
  citations : value;
  url : value;
  pub_url : value
}.
End Publication.

Module Author.
Record t : Type := mk {
  name : value;
  affiliation : value;
  email_domain : value;
  citations : value;
  h_index : value;
  i10_index : value;
  interests : value;
  scholar_id : value
}.
End Author.

(** ** scholar.py: capped iteration over upstream results *)

(** An item yielded by [scholarly.search_pubs]: a mapping whose ["bib"]
    entry, when present, is a mapping too. *)
Record pub_result : Type := mkPubResult {
  res_bib : option (gmap string value);
  res_top : gmap string value
}.

(** The [Publication(...)] constructed in the loop of [search_publications]. *)
Definition to_publication (result : pub_result) : Publication.t :=
  let bib := default ∅ (res_bib result) in
  Publication.mk
    (dict_get bib "title" (VStr "Unknown"))
    (dict_get bib "author" (VList []))
    (dict_get bib "pub_year" VNone)
    (dict_get bib "abstract" VNone)
    (dict_get (res_top result) "num_citations" (VInt 0))
    (dict_get (res_top result) "eprint_url" VNone)
    (dict_get (res_top result) "pub_url" VNone).

(** The [Author(...)] constructed in [search_authors] and in
    [get_author_details]. *)
Definition to_author (result : gmap string value) : Author.t :=
  Author.mk
    (dict_get result "name" (VStr "Unknown"))
    (dict_get result "affiliation" VNone)
    (dict_get result "email_domain" VNone)
    (dict_get result "citedby" (VInt 0))
    (dict_get result "hindex" (VInt 0))
    (dict_get result "i10index" (VInt 0))
    (dict_get result "interests" (VList []))
    (dict_get result "scholar_id" VNone).

(** A generator object is suspended before its first statement, at its
    [yield], or has returned. *)
Inductive gen_pc : Type := AtStart | AtYield | Returned.

(** The frame of a running [search_publications] / [search_authors]:
    [search_query] holds the items the upstream iterator has not handed out
    yet, [limit] is the parameter and [count] the local counter. *)
Record generator (R : Type) : Type := mkGen {
  search_query : list R;
  limit : Z;
  count : Z;
  pc : gen_pc
}.
Arguments mkGen {R} _ _ _ _.
Arguments search_query {R} _.
Arguments limit {R} _.
Arguments count {R} _.
Arguments pc {R} _.

(** One turn of [for result in search_query: if count >= limit: break; ...;
    yield record]: the [for] statement first takes the next item from the
    iterator, then the body tests the counter.  [build] is the record
    constructed from the item. *)
Definition loop_turn {R Rec : Type} (build : R → Rec)
    (items : list R) (limit count : Z) : option Rec * generator R :=
  match items with
  | [] => (None, mkGen [] limit count Returned)
  | result :: rest =>
      if (count >=? limit)%Z then (None, mkGen rest limit count Returned)
      else (Some (build result), mkGen rest limit count AtYield)
  end.

(** [next(g)]: [Some record] for a yielded record, [None] for
    [StopIteration].  Resuming at the [yield] first runs [count += 1]. *)
Definition gen_next {R Rec : Type} (build : R → Rec) (g : generator R)
  : option Rec * generator R :=
  match pc g with
  | AtStart => loop_turn build (search_query g) (limit g) 0
  | AtYield => loop_turn build (search_query g) (limit g) (count g + 1)
  | Returned => (None, g)
  end.

(** [list(g)]: call [next] until [StopIteration]; [None] when [fuel] calls
    were not enough. *)
Fixpoint gen_to_list {R Rec : Type} (build : R → Rec) (fuel : nat)
    (g : generator R) : option (list Rec * generator R) :=
  match fuel with
  | O => None
  | S fuel' =>
      match gen_next build g with
      | (None, g') => Some ([], g')
      | (Some rec, g') =>
          match gen_to_list build fuel' g' with
          | Some (recs, g'') => Some (rec :: recs, g'')
          | None => None
          end
      end
  end.

(** A consumer that asks for [n] records only: [n] calls of [next], fewer
    when [StopIteration] comes first. *)
Fixpoint gen_take {R Rec : Type} (build : R → Rec) (n : nat)
    (g : generator R) : list Rec * generator R :=
  match n with
  | O => ([], g)
  | S n' =>
      match gen_next build g with
      | (None, g') => ([], g')
      | (Some rec, g') =>
          let '(recs, g'') := gen_take build n' g' in (rec :: recs, g'')
      end
  end.

(** [search_publications(query, limit, year_start, year_end)] returns a fresh
    generator over the iterator that [scholarly.search_pubs] answered. *)
Definition search_publications
    (search_pubs : string → option Z → option Z → list pub_result)
    (query : string) (limit : Z) (year_start year_end : option Z)
  : generator pub_result :=
  mkGen (search_pubs query year_start year_end) limit 0 AtStart.

Definition next_publication := gen_next to_publication.
Definition list_publications := gen_to_list to_publication.

(** [search_authors(query, limit)] *)
Definition search_authors
    (search_author : string → list (gmap string value))
    (query : string) (limit : Z) : generator (gmap string value) :=
  mkGen (search_author query) limit 0 AtStart.

Definition next_author := gen_next to_author.
Definition list_authors := gen_to_list to_author.

(** ** scholar.py: author details *)

(** [get_author_details(scholar_id)]: both upstream calls sit in the [try]
    block; [except Exception] turns whatever they raise into [None]. *)
Definition get_author_details
    (search_author_id : string → outcome (gmap string value))
    (fill : gmap string value → outcome (gmap string value))
    (scholar_id : string) : option Author.t :=
  match
    (result ← search_author_id scholar_id;
     result ← fill result;
     let author := to_author result in
     mret author)
  with
  | Ok author => Some author
  | Raise e => None
  end.

(** ** books.py: the [Book] dataclass *)

Record Book : Type := mkBook {
  title : string;
  authors : list string;
  publisher : option string;
  published_date : option string;
  description : option string;
  page_count : option Z;
  categories : list string;
  preview_link : option string;
  info_link : option string;
  isbn_10 : option string;
  isbn_13 : option string
}.

(** The [year] property. *)
Definition year (self : Book) : string :=
  match published_date self with
  | Some ((String _ _) as d) => str_take 4 d
  | _ => "n.d."
  end.

(** The [isbn] property: [self.isbn_13 or self.isbn_10]. *)
Definition isbn (self : Book) : option string :=
  if truthy_str (isbn_13 self) then isbn_13 self else isbn_10 self.

(** The generator expression [f"{p[0]}." for p in parts[:-1]]. *)
Definition initials (parts : list string) : outcome (list string) :=
  mapM (fun p => c ← str_first p; mret (c +:+ ".")) (list_init parts).

(** The body of the loop of [_format_authors_apa]: what one author adds to
    [formatted]. *)
Definition apa_author (author : string) : outcome string :=
  let parts := split author in
  if (2 <=? length parts)%nat then
    last ← list_last parts;
    inits ← initials parts;
    mret (last +:+ ", " +:+ join " " inits)
  else mret author.

Definition _format_authors_apa (self : Book) : outcome string :=
  match authors self with
  | [] => mret "Unknown Author"
  | _ =>
      formatted ← for_each (fun formatted author =>
                              a ← apa_author author; mret (formatted ++ [a]))
                           (authors self) [];
      if (length formatted =? 1)%nat then list_get formatted 0
      else if (length formatted =? 2)%nat then
        f0 ← list_get formatted 0;
        f1 ← list_get formatted 1;
        mret (f0 +:+ " & " +:+ f1)
      else
        l ← list_last formatted;
        mret (join ", " (list_init formatted) +:+ ", & " +:+ l)
  end.

(** The expression that [_format_authors_mla] evaluates for its first
    author when there are two authors or more:
    [f"{first[-1]}, {' '.join(first[:-1])}" if len(first) >= 2 else first[0]]
    with [first = self.authors[0].split()]. *)
Definition mla_first_formatted (author : string) : outcome string :=
  let first := split author in
  if (2 <=? length first)%nat then
    l ← list_last first;
    mret (l +:+ ", " +:+ join " " (list_init first))
  else list_get first 0.

Definition _format_authors_mla (self : Book) : outcome string :=
  match authors self with
  | [] => mret "Unknown Author"
  | _ =>
      if (length (authors self) =? 1)%nat then
        a0 ← list_get (authors self) 0;
        let parts := split a0 in
        if (2 <=? length parts)%nat then
          l ← list_last parts;
          mret (l +:+ ", " +:+ join " " (list_init parts))
        else list_get (authors self) 0
      else if (length (authors self) =? 2)%nat then
        a0 ← list_get (authors self) 0;
        first_formatted ← mla_first_formatted a0;
        a1 ← list_get (authors self) 1;
        mret (first_formatted +:+ ", and " +:+ a1)
      else
        a0 ← list_get (authors self) 0;
        first_formatted ← mla_first_formatted a0;
        mret (first_formatted +:+ ", et al.")
  end.

Definition _format_authors_chicago (self : Book) : outcome string :=
  _format_authors_mla self.

(** The body of the loop of [_format_authors_harvard]. *)
Definition harvard_author (author : string) : outcome string :=
  let parts := split author in
  if (2 <=? length parts)%nat then
    last ← list_last parts;
    inits ← initials parts;
    mret (last +:+ ", " +:+ join "" inits)
  else mret author.

Definition _format_authors_harvard (self : Book) : outcome string :=
  match authors self with
  | [] => mret "Unknown Author"
  | _ =>
      formatted ← for_each (fun formatted author =>
                              a ← harvard_author author; mret (formatted ++ [a]))
                           (authors self) [];
      if (length formatted =? 1)%nat then list_get formatted 0
      else if (length formatted =? 2)%nat then
        f0 ← list_get formatted 0;
        f1 ← list_get formatted 1;
        mret (f0 +:+ " and " +:+ f1)
      else
        l ← list_last formatted;
        mret (join ", " (list_init formatted) +:+ " and " +:+ l)
  end.

Definition cite_apa (self : Book) : outcome string :=
  authors ← _format_authors_apa self;
  let publisher := str_or (publisher self) "Publisher unknown" in
  mret (authors +:+ " (" +:+ year self +:+ "). " +:+ title self +:+ ". "
        +:+ publisher +:+ ".").

Definition cite_mla (self : Book) : outcome string :=
  authors ← _format_authors_mla self;
  let publisher := str_or (publisher self) "Publisher unknown" in
  let sep := if endswith authors "." then " " else ". " in
  mret (authors +:+ sep +:+ title self +:+ ". " +:+ publisher +:+ ", "
        +:+ year self +:+ ".").

Definition cite_chicago (self : Book) : outcome string :=
  authors ← _format_authors_chicago self;
  let publisher := str_or (publisher self) "Publisher unknown" in
  let sep := if endswith authors "." then " " else ". " in
  mret (authors +:+ sep +:+ title self +:+ ". " +:+ publisher +:+ ", "
        +:+ year self +:+ ".").

Definition cite_harvard (self : Book) : outcome string :=
  authors ← _format_authors_harvard self;
  let publisher := str_or (publisher self) "Publisher unknown" in
  mret (authors +:+ " (" +:+ year self +:+ ") " +:+ title self +:+ ". "
        +:+ publisher +:+ ".").

(** The method table of [cite], in insertion order. *)
Definition styles : list (string * (Book → outcome string)) :=
  [("apa", cite_apa); ("mla", cite_mla); ("chicago", cite_chicago);
   ("harvard", cite_harvard)].

(** [styles[key]] / [key in styles] on the method table. *)
Fixpoint styles_lookup {V : Type} (key : string) (table : list (string * V))
  : option V :=
  match table with
  | [] => None
  | (k, v) :: rest => if String.eqb key k then Some v else styles_lookup key rest
  end.

Definition cite (self : Book) (style : string) : outcome string :=
  match styles_lookup (lower style) styles with
  | None =>
      Raise (ValueError ("Unsupported style: " +:+ style +:+ ". Use: "
                         +:+ join ", " (map fst styles)))
  | Some method => method self
  end.

Definition jane : Book :=
  mkBook "Title" ["Jane Q. Public"] (Some "ACME") (Some "2020-05-01")
         None None [] None None None None.

(** ** The query as the specification describes it *)

(** The part contributed by the alternative terms: none, the bare term, or
    the parenthesised OR-list. *)
Definition term_group (terms : list string) : list string :=
  match terms with
  | [] => []
  | [t] => [t]
  | _ => ["(" +:+ join " OR " terms +:+ ")"]
  end.

(** [phrase], wrapped in double quotes when [test] holds of it. *)
Definition quote_if (test : string → bool) (phrase : string) : string :=
  if test phrase then dquote +:+ phrase +:+ dquote else phrase.

(** The phrase contains the space character U+0020. *)
Definition has_space (phrase : string) : bool :=
  existsb (Ascii.eqb " ") (list_ascii_of_string phrase).

(** The phrase contains a whitespace character. *)
Definition has_whitespace (phrase : string) : bool :=
  existsb is_space (list_ascii_of_string phrase).

(** The parts, AND-joined when there is more than one. *)
Definition and_group (parts : list string) : string :=
  match parts with
  | [] => ""
  | [p] => p
  | _ => join " AND " parts
  end.

(** The title filter suffix, read as: present whenever a value is passed. *)
Definition intitle_suffix_given (intitle : option string) : string :=
  match intitle with
  | Some t => " intitle:" +:+ dquote +:+ t +:+ dquote
  | None => ""
  end.

(** The title filter suffix, present when a non-empty value is passed. *)
Definition intitle_suffix (intitle : option string) : string :=
  match intitle with
  | Some ((String _ _) as t) => " intitle:" +:+ dquote +:+ t +:+ dquote
  | _ => ""
  end.

(** One [ -term] per exclusion term, in order. *)
Definition exclusion_suffixes (exclude_terms : list string) : string :=
  fold_right (fun term rest => " -" +:+ term +:+ rest) "" exclude_terms.

(** ** Author names as the specification describes them *)

(** The first letter of a token. *)
Definition first_letter (token : string) : string :=
  match token with
  | EmptyString => ""
  | String c _ => String c ""
  end.

(** A name of two or more whitespace-separated tokens is rendered as the
    last token, a comma, and the initials of the tokens before it, each
    followed by a period and separated by [sep]; any other name is used
    verbatim. *)
Definition initials_name (sep : string) (author : string) : string :=
  let tokens := split author in
  if (2 <=? length tokens)%nat then
    List.last tokens "" +:+ ", "
    +:+ join sep (map (fun t => first_letter t +:+ ".") (removelast tokens))
  else author.

Definition apa_name : string → string := initials_name " ".
Definition harvard_name : string → string := initials_name "".

(** ** Citations as the specification describes them *)

(** The publisher text, read as: the default only for an absent publisher. *)
Definition publisher_when_absent (publisher : option string) : string :=
  default "Publisher unknown" publisher.

(** The publisher text: the default for an absent or empty publisher. *)
Definition publisher_text (publisher : option string) : string :=
  match publisher with
  | Some ((String _ _) as p) => p
  | _ => "Publisher unknown"
  end.

(** The MLA/Chicago template. *)
Definition mla_template (authors sep title publisher year : string) : string :=
  authors +:+ sep +:+ title +:+ ". " +:+ publisher +:+ ", " +:+ year +:+ ".".

(** The keys of the method table. *)
Definition style_names : list string := ["apa"; "mla"; "chicago"; "harvard"].

(** ** Sample inputs *)

(** A phrase with a tab and no space. *)
Definition tabbed_phrase : string :=
  "job" +:+ String (ascii_of_nat 9) "satisfaction".

Definition three_authors : Book :=
  mkBook "Engines" ["Ada Lovelace"; "Alan M. Turing"; "Grace Hopper"]
         (Some "ACME") (Some "1999") None None [] None None None None.

Definition empty_publisher : Book :=
  mkBook "Title" ["Jane Q. Public"] (Some "") (Some "2020-05-01")
         None None [] None None None None.

(** A book whose first of two authors is an empty name. *)
Definition blank_first_author : Book :=
  mkBook "Title" [""; "Jane Q. Public"] (Some "ACME") (Some "2020-05-01")
         None None [] None None None None.

(** An upstream item shaped like the ones of the test suite. *)
Definition paper (i : Z) : pub_result :=
  mkPubResult (Some (<["title" := VStr "Paper"]> (<["author" := VList []]> ∅)))
              (<["num_citations" := VInt i]> ∅).

Definition ten_results : list pub_result := map paper (seqZ 0 10).

(** ** More Python runtime fragments *)

(** [s[n:]] for a non-negative [n]. *)
Fixpoint str_drop (n : nat) (s : string) : string :=
  match n, s with
  | O, _ => s
  | S n', String _ s' => str_drop n' s'
  | S _, EmptyString => EmptyString
  end.

(** [s.split(sep)] for a non-empty [sep] (the source only passes [" OR "]):
    cut at the leftmost occurrence of [sep], go on behind it.  [tok] is the
    piece being read; [fuel] bounds the number of steps and the length of
    [s] plus one is enough. *)
Fixpoint split_sep_go (fuel : nat) (sep tok s : string) : list string :=
  match fuel with
  | O => [tok +:+ s]
  | S fuel' =>
      match s with
      | EmptyString => [tok]
      | String c s' =>
          if String.prefix sep s
          then tok :: split_sep_go fuel' sep "" (str_drop (String.length sep) s)
          else split_sep_go fuel' sep (tok +:+ String c EmptyString) s'
      end
  end.

Definition split_sep (sep s : string) : list string :=
  split_sep_go (S (String.length s)) sep "" s.

(** [s.lstrip()], [s.rstrip()], [s.strip()] *)
Fixpoint lstrip (s : string) : string :=
  match s with
  | EmptyString => EmptyString
  | String c s' => if is_space c then lstrip s' else s
  end.

Fixpoint rstrip (s : string) : string :=
  match s with
  | EmptyString => EmptyString
  | String c s' =>
      match rstrip s' with
      | EmptyString => if is_space c then EmptyString else String c EmptyString
      | r => String c r
      end
  end.

Definition strip (s : string) : string := rstrip (lstrip s).

(** Truthiness of a list or tuple. *)
Definition truthy_list {A : Type} (l : list A) : bool :=
  match l with
  | [] => false
  | _ :: _ => true
  end.

(** The escape character U+001B. *)
Definition esc : string := String (ascii_of_nat 27) EmptyString.

(** The string holds the character [c]. *)
Definition has_char (c : ascii) (s : string) : bool :=
  existsb (Ascii.eqb c) (list_ascii_of_string s).

(** ** cli.py *)

(** [hyperlink(url, text=None)]; [isatty] is [sys.stdout.isatty()] and
    [environ] is [os.environ]. *)
Definition hyperlink (isatty : bool) (environ : gmap string string)
    (url : string) (text : option string) : string :=
  let display := str_or text url in
  if negb isatty || truthy_str (environ !! "NO_COLOR") then
    if truthy_str text then display +:+ " (" +:+ url +:+ ")" else url
  else
    esc +:+ "]8;;" +:+ url +:+ esc +:+ "\" +:+ display
    +:+ esc +:+ "]8;;" +:+ esc +:+ "\".

(** The terms that [search_cmd] passes to [build_query]:
    [[t.strip() for t in query.split(" OR ")] if " OR " in query else [query]]. *)
Definition search_terms (query : string) : list string :=
  if str_contains " OR " query then map strip (split_sep " OR " query)
  else [query].

(** ** books.py: the Google Books request *)

Definition GOOGLE_BOOKS_API_URL : string :=
  "https://www.googleapis.com/books/v1/volumes".

(** The decoded response, typed as the API documents it; [None] is an absent
    key. *)
Record identifier : Type := mkIdentifier {
  id_type : option string;
  id_identifier : option string
}.

Record volume_info : Type := mkVolumeInfo {
  vi_title : option string;
  vi_authors : option (list string);
  vi_publisher : option string;
  vi_publishedDate : option string;
  vi_description : option string;
  vi_pageCount : option Z;
  vi_categories : option (list string);
  vi_previewLink : option string;
  vi_infoLink : option string;
  vi_industryIdentifiers : option (list identifier)
}.

Record volume_item : Type := mkVolumeItem {
  it_volumeInfo : option volume_info
}.

Record books_response : Type := mkBooksResponse {
  resp_items : option (list volume_item)
}.

(** The empty mapping [{}] as a [volumeInfo]. *)
Definition empty_volume_info : volume_info :=
  mkVolumeInfo None None None None None None None None None None.

(** [get_api_key()]; [environ] is [os.environ]. *)
Definition get_api_key (environ : gmap string string) : outcome string :=
  match environ !! "GOOGLE_BOOKS_API_KEY" with
  | Some ((String _ _) as api_key) => Ok api_key
  | _ =>
      Raise (ValueError
               ("GOOGLE_BOOKS_API_KEY environment variable not set. "
                +:+ "Get an API key from https://console.developers.google.com/"))
  end.

(** One turn of the loop over [industryIdentifiers]; the state is
    [(isbn_10, isbn_13)]. *)
Definition isbn_turn (isbns : option string * option string) (ident : identifier)
  : option string * option string :=
  let '(isbn_10, isbn_13) := isbns in
  if bool_decide (id_type ident = Some "ISBN_10")
  then (id_identifier ident, isbn_13)
  else if bool_decide (id_type ident = Some "ISBN_13")
  then (isbn_10, id_identifier ident)
  else (isbn_10, isbn_13).

(** The body of the loop over [items]: the [Book] yielded for one item. *)
Definition to_book (item : volume_item) : Book :=
  let volume_info := default empty_volume_info (it_volumeInfo item) in
  let '(isbn_10, isbn_13) :=
    fold_left isbn_turn (default [] (vi_industryIdentifiers volume_info))
              (None, None) in
  mkBook (default "Unknown" (vi_title volume_info))
         (default [] (vi_authors volume_info))
         (vi_publisher volume_info)
         (vi_publishedDate volume_info)
         (vi_description volume_info)
         (vi_pageCount volume_info)
         (default [] (vi_categories volume_info))
         (vi_previewLink volume_info)
         (vi_infoLink volume_info)
         isbn_10 isbn_13.

(** [list(search_books(query, limit))]: the generator run to exhaustion.
    [urlencode] is [urllib.parse.urlencode] on the parameters in order, and
    [urlopen_json] opens the URL and decodes the JSON body, or raises. *)
Definition search_books (environ : gmap string string)
    (urlencode : list (string * value) → string)
    (urlopen_json : string → outcome books_response)
    (query : string) (limit : Z) : outcome (list Book) :=
  api_key ← get_api_key environ;
  let params :=
    urlencode [("q", VStr query); ("key", VStr api_key);
               ("maxResults", VInt (Z.min limit 40))] in
  let url := GOOGLE_BOOKS_API_URL +:+ "?" +:+ params in
  data ← urlopen_json url;
  let items := default [] (resp_items data) in
  mret (map to_book items).

(** ** cli.py: from the arguments of a command to its result list *)

(** How the first part of a command ends: it goes on with a value, it calls
    [ctx.exit(code)] after writing [stderr] lines, or an exception escapes. *)
Inductive cmd (A : Type) : Type :=
| Proceed (a : A)
| Exit (code : Z) (stderr : list string)
| Uncaught (e : exn).
Arguments Proceed {A} a.
Arguments Exit {A} code stderr.
Arguments Uncaught {A} e.

(** The [--stdin] block shared by the commands: [stdin] is the flag,
    [stdin_isatty] is [sys.stdin.isatty()], [stdin_text] is what
    [sys.stdin.read()] returns, [hint] is the second line of the message. *)
Definition stdin_query (stdin stdin_isatty : bool) (stdin_text : string)
    (query : option string) (hint : string) : cmd (option string) :=
  if stdin then
    if negb stdin_isatty then Proceed (Some (strip stdin_text))
    else Exit 1 ["Error: --stdin specified but no input provided"; hint]
  else Proceed query.

(** [search_cmd] up to its [final_query] (lines 169-200): the [--stdin]
    block, the exit on a missing query, and the query that is then searched
    for; [exact] and [exclude] are the tuples of the repeatable options. *)
Definition search_cmd_final_query (query : option string)
    (exact exclude : list string) (intitle : option string)
    (stdin stdin_isatty : bool) (stdin_text : string) : cmd string :=
  match stdin_query stdin stdin_isatty stdin_text query
                    "Fix: echo 'query' | google-scholar-tool search --stdin" with
  | Exit code err => Exit code err
  | Uncaught e => Uncaught e
  | Proceed query =>
      match query with
      | Some ((String _ _) as query) =>
          if truthy_list exact || truthy_list exclude || truthy_str intitle then
            let terms := search_terms query in
            Proceed (build_query terms
                       (if truthy_list exact then Some exact else None)
                       (if truthy_list exclude then Some exclude else None)
                       intitle)
          else Proceed query
      | _ =>
          Exit 1 ["Error: Missing query argument";
                  "Fix: Provide a search query, e.g.: google-scholar-tool search 'machine learning'"]
      end
  end.

(** [list(g)] with the fuel that always suffices. *)
Definition gen_list {R Rec : Type} (build : R → Rec) (g : generator R)
  : list Rec :=
  match gen_to_list build (S (length (search_query g))) g with
  | Some (recs, _) => recs
  | None => []
  end.

(** [author_cmd] up to its [results] list (lines 279-307). *)
Definition author_cmd_results
    (search_author_id : string → outcome (gmap string value))
    (fill : gmap string value → outcome (gmap string value))
    (search_author : string → list (gmap string value))
    (query : option string) (limit : Z) (scholar_id : option string)
    (stdin stdin_isatty : bool) (stdin_text : string) : cmd (list Author.t) :=
  match stdin_query stdin stdin_isatty stdin_text query
                    "Fix: echo 'name' | google-scholar-tool author --stdin" with
  | Exit code err => Exit code err
  | Uncaught e => Uncaught e
  | Proceed query =>
      if negb (truthy_str query) && negb (truthy_str scholar_id) then
        Exit 1 ["Error: Provide either a query or --scholar-id";
                "Fix: author 'name' OR author --scholar-id 'ID'"]
      else
        match scholar_id with
        | Some ((String _ _) as scholar_id) =>
            match get_author_details search_author_id fill scholar_id with
            | None => Exit 1 ["Author not found"]
            | Some author => Proceed [author]
            end
        | _ =>
            Proceed (gen_list to_author
                       (search_authors search_author (str_or query "") limit))
        end
  end.

(** [books_cmd] up to its [results] list (lines 384-410).
    [is_value_error e] is [isinstance(e, ValueError)]. *)
Definition books_cmd_results (environ : gmap string string)
    (urlencode : list (string * value) → string)
    (urlopen_json : string → outcome books_response)
    (is_value_error : exn → bool)
    (query : option string) (limit : Z)
    (stdin stdin_isatty : bool) (stdin_text : string) : cmd (list Book) :=
  match stdin_query stdin stdin_isatty stdin_text query
                    "Fix: echo 'query' | google-scholar-tool books --stdin" with
  | Exit code err => Exit code err
  | Uncaught e => Uncaught e
  | Proceed query =>
      match query with
      | Some ((String _ _) as query) =>
          match search_books environ urlencode urlopen_json query limit with
          | Ok results => Proceed results
          | Raise e =>
              if is_value_error e then Exit 1 ["Error: " +:+ exn_msg e]
              else Uncaught e
          end
      | _ =>
          Exit 1 ["Error: Missing query argument";
                  "Fix: Provide a search query, e.g.: google-scholar-tool books 'python'"]
      end
  end.

(** ** Further notions and sample inputs *)

(** Every character of the name is whitespace (the empty name included). *)
Definition blank (s : string) : bool :=
  forallb is_space (list_ascii_of_string s).

Definition anonymous : Book :=
  mkBook "Beowulf" [] None (Some "1000") None None [] None None None None.

Definition two_authors : Book :=
  mkBook "Elements" ["William Strunk Jr."; "E. B. White"] (Some "Macmillan")
         (Some "1959") None None [] None None None None.

(** Two items as [scholarly.search_author] yields them. *)
Definition author_results : list (gmap string value) :=
  [<["name" := VStr "Ada Lovelace"]> (<["hindex" := VInt 12]> ∅);
   <["name" := VStr "Alan Turing"]> ∅].

(** An environment with an API key, a stand-in for [urlencode] that shows
    [maxResults], and an API that answers two volumes whatever is asked. *)
Definition environ_with_key : gmap string string :=
  <["GOOGLE_BOOKS_API_KEY" := "secret"]> ∅.

Definition show_max_results (params : list (string * value)) : string :=
  match params with
  | [_; _; (_, VInt n)] =>
      if (n =? 40)%Z then "maxResults=40"
      else if (n =? 1)%Z then "maxResults=1" else "maxResults=other"
  | _ => ""
  end.

Definition volume_with_isbns : volume_item :=
  mkVolumeItem
    (Some (mkVolumeInfo (Some "Engines") (Some ["Ada Lovelace"]) None
             (Some "1843") None None None None None
             (Some [mkIdentifier (Some "ISBN_13") (Some "9780000000001");
                    mkIdentifier (Some "OTHER") (Some "x");
                    mkIdentifier (Some "ISBN_10") (Some "0000000001");
                    mkIdentifier (Some "ISBN_13") (Some "9780000000002")]))).

Definition two_volumes (url : string) : outcome books_response :=
  Ok (mkBooksResponse (Some [volume_with_isbns; mkVolumeItem None])).

(** A stripped query with two alternatives. *)
Definition or_query : string := "deep learning OR neural networks".

(** [isinstance(e, ValueError)] by class name, for the classes met here. *)
Definition value_error_class (e : exn) : bool :=
  bool_decide (exn_class e = "ValueError").

(** An upstream that always fails, and one that answers a response with a
    name only. *)
Definition failing_lookup (scholar_id : string) : outcome (gmap string value) :=
  Raise (mkExn "MaxTriesExceededException" "Cannot Fetch from Google Scholar.").

Definition sparse_lookup (scholar_id : string) : outcome (gmap string value) :=
  Ok (<["name" := VStr "Ada Lovelace"]> ∅).

Definition fill_unchanged (result : gmap string value)
  : outcome (gmap string value) := Ok result.

Definition failing_fill (result : gmap string value)
  : outcome (gmap string value) := Raise (mkExn "AttributeError" "fill").

(** ** Sanity checks on the embedding *)

Example build_query_single : build_query ["A"] None None None = "A".
Proof. reflexivity. Qed.

Example build_query_complex :
  build_query ["HRM"; "human resource management"] (Some ["job satisfaction"])
              (Some ["education"]) (Some "the Netherlands")
  = "(HRM OR human resource management) AND " +:+ dquote +:+ "job satisfaction"
    +:+ dquote +:+ " intitle:" +:+ dquote +:+ "the Netherlands" +:+ dquote
    +:+ " -education".
Proof. reflexivity. Qed.

Example build_query_exclude :
  build_query ["machine learning"] None (Some ["education"]) None
  = "machine learning -education".
Proof. reflexivity. Qed.

Example build_query_phrases_only :
  build_query [] (Some ["a"; "b c"]) None None
  = "a AND " +:+ dquote +:+ "b c" +:+ dquote.
Proof. reflexivity. Qed.

Example year_absent :
  year (mkBook "T" [] None None None None [] None None None None) = "n.d.".
Proof. reflexivity. Qed.

Example year_short :
  year (mkBook "T" [] None (Some "1999") None None [] None None None None)
  = "1999".
Proof. reflexivity. Qed.

Example no_authors_mla :
  cite (mkBook "T" [] None None None None [] None None None None) "mla"
  = Ok "Unknown Author. T. Publisher unknown, n.d..".
Proof. reflexivity. Qed.

Example details_failing :
  get_author_details failing_lookup fill_unchanged "XrH4VJUAAAAJ" = None.
Proof. reflexivity. Qed.

Example details_failing_fill :
  get_author_details sparse_lookup failing_fill "XrH4VJUAAAAJ" = None.
Proof. reflexivity. Qed.

Example details_sparse :
  get_author_details sparse_lookup fill_unchanged "XrH4VJUAAAAJ"
  = Some (Author.mk (VStr "Ada Lovelace") VNone VNone (VInt 0) (VInt 0)
                    (VInt 0) (VList []) VNone).
Proof. vm_compute. reflexivity. Qed.

Example split_name : split "  Jane Q.  Public " = ["Jane"; "Q."; "Public"].
Proof. reflexivity. Qed.

Example lower_mixed : lower "ChiCAGO" = "chicago".
Proof. reflexivity. Qed.

Example jane_apa : cite jane "apa" = Ok "Public, J. Q. (2020). Title. ACME.".
Proof. reflexivity. Qed.

Example jane_mla : cite jane "MLA" = Ok "Public, Jane Q. Title. ACME, 2020.".
Proof. reflexivity. Qed.

(** ** Strings and joins *)

Lemma str_app_cons (c : ascii) (s t : string) : String c s +:+ t = String c (s +:+ t).
Proof. reflexivity. Qed.

Lemma str_app_nil_l (s : string) : "" +:+ s = s.
Proof. reflexivity. Qed.

Lemma str_app_nil_r (s : string) : s +:+ "" = s.
Proof. induction s as [|c s IH]; [reflexivity|]. rewrite str_app_cons. by f_equal. Qed.

Lemma str_app_assoc (s t u : string) : (s +:+ t) +:+ u = s +:+ (t +:+ u).
Proof.
  induction s as [|c s IH]; [reflexivity|].
  rewrite !str_app_cons. by f_equal.
Qed.

Lemma join_cons2 (sep p q : string) (rest : list string) :
  join sep (p :: q :: rest) = p +:+ sep +:+ join sep (q :: rest).
Proof. reflexivity. Qed.

(** Joining with the empty separator is plain concatenation. *)
Lemma join_empty_cons (p : string) (rest : list string) :
  join "" (p :: rest) = p +:+ join "" rest.
Proof.
  destruct rest as [|q rest]; [by rewrite str_app_nil_r|].
  by rewrite join_cons2, str_app_nil_l.
Qed.

(** [sub in s] for a one-character [sub] is membership of that character. *)
Lemma str_contains_char (c : ascii) (s : string) :
  str_contains (String c "") s = true ↔ In c (list_ascii_of_string s).
Proof.
  induction s as [|d s IH]; simpl.
  - split; [discriminate|tauto].
  - rewrite orb_true_iff, IH.
    destruct (Ascii.ascii_dec c d) as [->|Hne].
    + split; [by left|intros _; left; by destruct s].
    + split; (intros [H|H]; [congruence|by right]).
Qed.

(** ** Properties of [build_query] *)

Lemma parts_loop (test : string → bool) (phrases acc : list string) :
  fold_left (fun parts phrase =>
               if test phrase then parts ++ [dquote +:+ phrase +:+ dquote]
               else parts ++ [phrase]) phrases acc
  = acc ++ map (quote_if test) phrases.
Proof.
  revert acc. induction phrases as [|p ps IH]; intros acc; simpl.
  - by rewrite app_nil_r.
  - rewrite IH. unfold quote_if. destruct (test p); by rewrite <- app_assoc.
Qed.

Lemma exclusions_loop (excl : list string) (query : string) :
  fold_left (fun q term => q +:+ " -" +:+ term) excl query
  = query +:+ exclusion_suffixes excl.
Proof.
  revert query. induction excl as [|t ts IH]; intros query.
  - simpl. unfold exclusion_suffixes. simpl. by rewrite str_app_nil_r.
  - simpl. rewrite IH. unfold exclusion_suffixes. simpl.
    by rewrite !str_app_assoc.
Qed.

Lemma combine_parts (parts : list string) :
  (if (1 <? length parts)%nat then join " AND " parts else join "" parts)
  = and_group parts.
Proof. by destruct parts as [|p [|q rest]]. Qed.

Lemma term_parts (terms : list string) :
  match terms with
  | [] => []
  | [t] => [] ++ [t]
  | _ => [] ++ ["(" +:+ join " OR " terms +:+ ")"]
  end = term_group terms.
Proof. by destruct terms as [|t [|u rest]]. Qed.

(** The shape of every built query. *)
Lemma build_query_shape (terms : list string)
    (exact_phrases exclude_terms : option (list string)) (intitle : option string) :
  build_query terms exact_phrases exclude_terms intitle
  = and_group (term_group terms
               ++ map (quote_if (str_contains " ")) (default [] exact_phrases))
    +:+ intitle_suffix intitle
    +:+ exclusion_suffixes (default [] exclude_terms).
Proof.
  unfold build_query. rewrite term_parts.
  set (parts := match exact_phrases with Some (_ :: _) => _ | _ => _ end).
  assert (parts = term_group terms
                  ++ map (quote_if (str_contains " ")) (default [] exact_phrases))
    as ->.
  { subst parts. destruct exact_phrases as [[|p ps]|]; simpl.
    - by rewrite app_nil_r.
    - apply (parts_loop _ (p :: ps)).
    - by rewrite app_nil_r. }
  rewrite combine_parts.
  set (g := and_group _).
  set (q := match intitle with Some (String _ _) => _ | _ => _ end).
  assert (q = g +:+ intitle_suffix intitle) as ->.
  { subst q. destruct intitle as [[|c t]|]; simpl; by rewrite ?str_app_nil_r. }
  destruct exclude_terms as [[|e ex]|]; simpl default.
  - unfold exclusion_suffixes. simpl. by rewrite !str_app_nil_r.
  - rewrite (exclusions_loop (e :: ex)). by rewrite str_app_assoc.
  - unfold exclusion_suffixes. simpl. by rewrite !str_app_nil_r.
Qed.

Lemma has_space_contains (phrase : string) :
  str_contains " " phrase = has_space phrase.
Proof.
  apply eq_true_iff_eq. rewrite str_contains_char. unfold has_space.
  rewrite existsb_exists. split.
  - intros H. exists " "%char. split; [done|]. apply Ascii.eqb_refl.
  - intros (c & Hc & Heq). apply Ascii.eqb_eq in Heq. by subst c.
Qed.

(** C1, as stated, fails: an [intitle] that is passed but empty adds no
    suffix, where the stated assembly would add [ intitle:] and an empty pair
    of quotes. *)
Lemma build_query_empty_intitle_counterexample :
  build_query ["A"] None None (Some "")
  ≠ build_query ["A"] None None None
    +:+ intitle_suffix_given (Some "") +:+ exclusion_suffixes [].
Proof. intros H. vm_compute in H. discriminate H. Qed.

(** C1 (amended): every built query is the terms/phrases group, then the
    suffix [ intitle:"<text>"] when a non-empty intitle is passed (nothing for
    an absent or empty one), then one suffix [ -<term>] per exclusion term,
    all plainly concatenated in this order whichever optional parts are
    present; with the three quoted instances. *)
Theorem build_query_fixed_order (terms : list string)
    (exact_phrases exclude_terms : option (list string)) (intitle : option string) :
  build_query terms exact_phrases exclude_terms intitle
  = build_query terms exact_phrases None None
    +:+ intitle_suffix intitle
    +:+ exclusion_suffixes (default [] exclude_terms)
  ∧ build_query ["A"] None None None = "A"
  ∧ build_query ["A"; "B"] None None None = "(A OR B)"
  ∧ build_query ["AI"] None (Some ["x"; "y"]) None = "AI -x -y".
Proof.
  split; [|by repeat split].
  rewrite (build_query_shape terms exact_phrases None None).
  rewrite (build_query_shape terms exact_phrases exclude_terms intitle).
  simpl. by rewrite !str_app_nil_r.
Qed.

(** C2, as stated, fails: a phrase whose only whitespace is a tab is left
    unquoted. *)
Lemma build_query_tab_phrase_counterexample :
  has_whitespace tabbed_phrase = true
  ∧ build_query ["HRM"] (Some [tabbed_phrase]) None None
    ≠ and_group (term_group ["HRM"] ++ map (quote_if has_whitespace) [tabbed_phrase]).
Proof. split; [reflexivity|]. intros H. vm_compute in H. discriminate H. Qed.

(** C2 (amended): every exact phrase is wrapped in double quotes if and only
    if it contains the space character; the term group and the phrases are
    joined with [" AND "] when they are more than one part, and a single part
    stands alone, before the intitle and exclusion suffixes; with the quoted
    instance. *)
Theorem build_query_phrases_and_join (terms : list string)
    (exact_phrases exclude_terms : option (list string)) (intitle : option string) :
  build_query terms exact_phrases exclude_terms intitle
  = and_group (term_group terms
               ++ map (quote_if has_space) (default [] exact_phrases))
    +:+ intitle_suffix intitle
    +:+ exclusion_suffixes (default [] exclude_terms)
  ∧ build_query ["HRM"] (Some ["job satisfaction"]) None None
    = "HRM AND " +:+ dquote +:+ "job satisfaction" +:+ dquote.
Proof.
  split; [|reflexivity].
  rewrite build_query_shape.
  do 3 f_equal. apply map_ext. intros p. unfold quote_if.
  by rewrite has_space_contains.
Qed.

(** ** Tokens and per-author formatting *)

Lemma split_from_nonempty (tok s : string) :
  Forall (fun t => t ≠ "") (split_from tok s).
Proof.
  revert tok. induction s as [|c s IH]; intros tok; simpl.
  - destruct tok; [constructor|]. by repeat constructor.
  - destruct (is_space c); [|apply IH].
    destruct tok; [apply IH|]. constructor; [done|apply IH].
Qed.

Lemma split_nonempty (s : string) : Forall (fun t => t ≠ "") (split s).
Proof. apply split_from_nonempty. Qed.

Lemma Forall_removelast {A : Type} (P : A → Prop) (l : list A) :
  Forall P l → Forall P (removelast l).
Proof.
  induction 1 as [|x l Hx Hl IH]; simpl; [constructor|].
  destruct l; [constructor|]. by constructor.
Qed.

Lemma mapM_first_letters (tokens : list string) :
  Forall (fun t => t ≠ "") tokens →
  mapM (fun p => c ← str_first p; mret (c +:+ ".")) tokens
  = Ok (map (fun t => first_letter t +:+ ".") tokens).
Proof.
  induction 1 as [|t ts Ht Hts IH]; [reflexivity|].
  simpl. rewrite IH. destruct t; [done|reflexivity].
Qed.

Lemma initials_ok (parts : list string) :
  Forall (fun t => t ≠ "") parts →
  initials parts = Ok (map (fun t => first_letter t +:+ ".") (removelast parts)).
Proof. intros H. apply mapM_first_letters. by apply Forall_removelast. Qed.

Lemma list_last_ok {A : Type} (l : list A) (d : A) :
  l ≠ [] → list_last l = Ok (List.last l d).
Proof.
  intros Hl. unfold list_last.
  destruct (last l) as [x|] eqn:E.
  - f_equal. revert x E. induction l as [|y l IH]; [done|]. intros x E.
    destruct l as [|z l]; [by inversion E|].
    change (List.last (y :: z :: l) d) with (List.last (z :: l) d).
    apply IH; [done|]. exact E.
  - by apply last_None in E.
Qed.

Lemma two_nonempty {A : Type} (l : list A) : (2 <=? length l)%nat = true → l ≠ [].
Proof. by destruct l. Qed.

(** Formatting one author never raises. *)
Lemma initials_author_ok (sep author : string) :
  (let parts := split author in
   if (2 <=? length parts)%nat then
     last ← list_last parts;
     inits ← initials parts;
     mret (last +:+ ", " +:+ join sep inits)
   else mret author) = Ok (initials_name sep author).
Proof.
  unfold initials_name. cbv zeta.
  destruct (2 <=? length (split author))%nat eqn:E; [|reflexivity].
  rewrite (list_last_ok _ "" (two_nonempty _ E)).
  rewrite (initials_ok _ (split_nonempty author)). reflexivity.
Qed.

Lemma apa_author_ok (author : string) : apa_author author = Ok (apa_name author).
Proof. apply initials_author_ok. Qed.

Lemma harvard_author_ok (author : string) :
  harvard_author author = Ok (harvard_name author).
Proof. apply initials_author_ok. Qed.

(** The loop that fills [formatted]. *)
Lemma formatted_loop (f : string → outcome string) (g : string → string)
    (authors acc : list string) :
  (∀ a, f a = Ok (g a)) →
  for_each (fun formatted author => a ← f author; mret (formatted ++ [a]))
           authors acc
  = Ok (acc ++ map g authors).
Proof.
  intros Hf. revert acc. induction authors as [|a l IH]; intros acc; simpl.
  - by rewrite app_nil_r.
  - rewrite Hf. simpl. rewrite IH. by rewrite <- app_assoc.
Qed.

(** ** The author strings of the four styles *)

Lemma format_authors_apa_eq (b : Book) :
  _format_authors_apa b
  = Ok match map apa_name (authors b) with
       | [] => "Unknown Author"
       | [f] => f
       | [f0; f1] => f0 +:+ " & " +:+ f1
       | fs => join ", " (removelast fs) +:+ ", & " +:+ List.last fs ""
       end.
Proof.
  unfold _format_authors_apa.
  destruct (authors b) as [|a0 [|a1 [|a2 rest]]]; [reflexivity|..];
    rewrite (formatted_loop apa_author apa_name) by apply apa_author_ok;
    [reflexivity..|].
  rewrite app_nil_l.
  remember (map apa_name (a0 :: a1 :: a2 :: rest)) as fs eqn:Hfs.
  assert (length fs = S (S (S (length rest)))) as Hlen
    by (subst fs; simpl; by rewrite length_map).
  simpl. rewrite Hlen.
  rewrite (list_last_ok fs "") by (intros ->; discriminate Hlen).
  destruct fs as [|f0 [|f1 [|f2 fs']]]; try discriminate Hlen.
  reflexivity.
Qed.

Lemma format_authors_harvard_eq (b : Book) :
  _format_authors_harvard b
  = Ok match map harvard_name (authors b) with
       | [] => "Unknown Author"
       | [f] => f
       | [f0; f1] => f0 +:+ " and " +:+ f1
       | fs => join ", " (removelast fs) +:+ " and " +:+ List.last fs ""
       end.
Proof.
  unfold _format_authors_harvard.
  destruct (authors b) as [|a0 [|a1 [|a2 rest]]]; [reflexivity|..];
    rewrite (formatted_loop harvard_author harvard_name)
      by apply harvard_author_ok;
    [reflexivity..|].
  rewrite app_nil_l.
  remember (map harvard_name (a0 :: a1 :: a2 :: rest)) as fs eqn:Hfs.
  assert (length fs = S (S (S (length rest)))) as Hlen
    by (subst fs; simpl; by rewrite length_map).
  simpl. rewrite Hlen.
  rewrite (list_last_ok fs "") by (intros ->; discriminate Hlen).
  destruct fs as [|f0 [|f1 [|f2 fs']]]; try discriminate Hlen.
  reflexivity.
Qed.

(** C4: with two authors the APA author string joins the two formatted
    authors with [" & "] and the Harvard one with [" and "]; with three or
    more, APA joins them with [", "] and puts [", & "] before the last, and
    Harvard joins them with [", "] and puts [" and "], without a comma, before
    the last. *)
Theorem author_joins (b : Book) (apa harvard : list string) :
  apa = map apa_name (authors b) →
  harvard = map harvard_name (authors b) →
  (2 ≤ length (authors b))%nat →
  (length (authors b) = 2
   ∧ _format_authors_apa b = Ok (join " & " apa)
   ∧ _format_authors_harvard b = Ok (join " and " harvard))
  ∨ ((3 ≤ length (authors b))%nat
     ∧ _format_authors_apa b
       = Ok (join ", " (removelast apa) +:+ ", & " +:+ List.last apa "")
     ∧ _format_authors_harvard b
       = Ok (join ", " (removelast harvard) +:+ " and "
             +:+ List.last harvard "")).
Proof.
  intros -> -> Hlen.
  rewrite format_authors_apa_eq, format_authors_harvard_eq.
  destruct (authors b) as [|a0 [|a1 [|a2 rest]]]; simpl in Hlen; [lia..| |].
  - left. by repeat split.
  - right. repeat split; simpl; lia.
Qed.

Lemma author_joins_witness :
  (2 ≤ length (authors three_authors))%nat
  ∧ ((length (authors three_authors) = 2
      ∧ _format_authors_apa three_authors
        = Ok (join " & " ["Lovelace, A."; "Turing, A. M."; "Hopper, G."])
      ∧ _format_authors_harvard three_authors
        = Ok (join " and " ["Lovelace, A."; "Turing, A.M."; "Hopper, G."]))
     ∨ ((3 ≤ length (authors three_authors))%nat
        ∧ _format_authors_apa three_authors
          = Ok "Lovelace, A., Turing, A. M., & Hopper, G."
        ∧ _format_authors_harvard three_authors
          = Ok "Lovelace, A., Turing, A.M. and Hopper, G.")).
Proof.
  split; [simpl; lia|].
  apply (author_joins three_authors
           ["Lovelace, A."; "Turing, A. M."; "Hopper, G."]
           ["Lovelace, A."; "Turing, A.M."; "Hopper, G."]);
    [reflexivity|reflexivity|simpl; lia].
Defined.

(** ** Citations *)

(** [s.endswith(suffix)] holds exactly when [s] is some prefix followed by
    [suffix]. *)
Lemma endswith_spec (s suffix : string) :
  endswith s suffix = true ↔ ∃ pre, s = pre +:+ suffix.
Proof.
  induction s as [|c s IH].
  - destruct suffix as [|d suffix]; simpl.
    + split; [by exists ""|done].
    + split; [done|]. intros [[|e pre] H]; discriminate H.
  - change (endswith (String c s) suffix)
      with (String.eqb (String c s) suffix || endswith s suffix).
    rewrite orb_true_iff, IH, String.eqb_eq. split.
    + intros [H|[pre H]].
      * by exists "".
      * exists (String c pre). by rewrite H.
    + intros [[|d pre] H].
      * by left.
      * right. exists pre. by inversion H.
Qed.

(** C3: the APA citation of a book by Jane Q. Public: surname from the last
    token, initials from the tokens before it, year from the first four
    characters of the date. *)
Theorem jane_public_apa (description : option string) (page_count : option Z)
    (categories : list string)
    (preview_link info_link isbn_10 isbn_13 : option string) :
  let b := mkBook "Title" ["Jane Q. Public"] (Some "ACME") (Some "2020-05-01")
                  description page_count categories preview_link info_link
                  isbn_10 isbn_13 in
  cite b "apa" = Ok "Public, J. Q. (2020). Title. ACME."
  ∧ split "Jane Q. Public" = ["Jane"; "Q."; "Public"]
  ∧ _format_authors_apa b = Ok "Public, J. Q."
  ∧ year b = str_take 4 "2020-05-01"
  ∧ year b = "2020".
Proof. by repeat split. Qed.

(** C5, as stated, fails: a publisher that is present but empty is replaced
    by the default as well. *)
Lemma cite_mla_empty_publisher_counterexample :
  _format_authors_mla empty_publisher = Ok "Public, Jane Q."
  ∧ cite_mla empty_publisher
    ≠ Ok (mla_template "Public, Jane Q." " " (title empty_publisher)
            (publisher_when_absent (publisher empty_publisher))
            (year empty_publisher)).
Proof. split; [reflexivity|]. intros H. vm_compute in H. discriminate H. Qed.

(** C5 (amended): whenever the MLA author string is produced, the MLA and
    the Chicago citations are [{authors}{sep}{title}. {publisher}, {year}.],
    where [sep] is one space exactly when the author string ends in a period
    and [". "] otherwise, and the publisher is ["Publisher unknown"] when it is
    absent or empty. *)
Theorem cite_mla_chicago_template (b : Book) (a : string) :
  _format_authors_mla b = Ok a →
  ∃ sep : string,
    ((sep = " " ∧ ∃ pre, a = pre +:+ ".")
     ∨ (sep = ". " ∧ ¬ ∃ pre, a = pre +:+ "."))
    ∧ cite_mla b
      = Ok (mla_template a sep (title b) (publisher_text (publisher b)) (year b))
    ∧ cite_chicago b
      = Ok (mla_template a sep (title b) (publisher_text (publisher b)) (year b)).
Proof.
  intros Ha. unfold cite_chicago, _format_authors_chicago, cite_mla.
  rewrite Ha. simpl.
  exists (if endswith a "." then " " else ". ").
  split; [|by split].
  destruct (endswith a ".") eqn:E.
  - left. split; [done|]. by apply endswith_spec.
  - right. split; [done|]. intros H. apply endswith_spec in H. congruence.
Qed.

Lemma cite_mla_chicago_template_witness :
  _format_authors_mla three_authors = Ok "Lovelace, Ada, et al."
  ∧ ∃ sep : string,
      ((sep = " " ∧ ∃ pre, "Lovelace, Ada, et al." = pre +:+ ".")
       ∨ (sep = ". " ∧ ¬ ∃ pre, "Lovelace, Ada, et al." = pre +:+ "."))
      ∧ cite_mla three_authors
        = Ok (mla_template "Lovelace, Ada, et al." sep "Engines" "ACME" "1999")
      ∧ cite_chicago three_authors
        = Ok (mla_template "Lovelace, Ada, et al." sep "Engines" "ACME" "1999").
Proof.
  split; [reflexivity|].
  apply (cite_mla_chicago_template three_authors "Lovelace, Ada, et al.").
  reflexivity.
Defined.

(** The first author of two or more, as [_format_authors_mla] renders it:
    it raises exactly when the name has no token. *)
Lemma mla_first_formatted_cases (author : string) :
  (split author = []
   ∧ mla_first_formatted author = Raise (IndexError "list index out of range"))
  ∨ (split author ≠ [] ∧ ∃ f, mla_first_formatted author = Ok f).
Proof.
  unfold mla_first_formatted. cbv zeta.
  destruct (split author) as [|t [|t' ts]] eqn:E.
  - left. by split.
  - right. split; [done|]. by eexists.
  - right. split; [done|].
    rewrite (list_last_ok (t :: t' :: ts) "") by done. by eexists.
Qed.

(** [_format_authors_mla] raises exactly for two or more authors of which the
    first has no token. *)
Lemma format_authors_mla_cases (b : Book) :
  match authors b with
  | a0 :: _ :: _ =>
      (split a0 = []
       ∧ _format_authors_mla b = Raise (IndexError "list index out of range"))
      ∨ (split a0 ≠ [] ∧ ∃ a, _format_authors_mla b = Ok a)
  | _ => ∃ a, _format_authors_mla b = Ok a
  end.
Proof.
  unfold _format_authors_mla.
  destruct (authors b) as [|a0 [|a1 [|a2 rest]]].
  - by eexists.
  - change (length [a0] =? 1)%nat with true. cbv iota.
    change (list_get [a0] 0) with (Ok a0).
    change (Ok a0 ≫= ?k) with (k a0). cbv beta zeta.
    destruct (2 <=? length (split a0))%nat eqn:E; [|by eexists].
    rewrite (list_last_ok _ "" (two_nonempty _ E)). by eexists.
  - change (length [a0; a1] =? 1)%nat with false.
    change (length [a0; a1] =? 2)%nat with true. cbv iota.
    change (list_get [a0; a1] 0) with (Ok a0).
    change (Ok a0 ≫= ?k) with (k a0). cbv beta.
    destruct (mla_first_formatted_cases a0) as [[E ->]|[E [f ->]]].
    + left. by split.
    + right. split; [done|]. by eexists.
  - change (length (a0 :: a1 :: a2 :: rest) =? 1)%nat with false.
    change (length (a0 :: a1 :: a2 :: rest) =? 2)%nat with false. cbv iota.
    change (list_get (a0 :: a1 :: a2 :: rest) 0) with (Ok a0).
    change (Ok a0 ≫= ?k) with (k a0). cbv beta.
    destruct (mla_first_formatted_cases a0) as [[E ->]|[E [f ->]]].
    + left. by split.
    + right. split; [done|]. by eexists.
Qed.

(** C9: the Chicago citation and author string are the MLA ones. *)
Theorem cite_chicago_is_mla (b : Book) :
  cite_chicago b = cite_mla b
  ∧ _format_authors_chicago b = _format_authors_mla b.
Proof. split; reflexivity. Qed.

(** ** Capped iteration *)

(** Running a generator that is suspended at its [yield] to exhaustion. *)
Lemma gen_to_list_at_yield {R Rec : Type} (build : R → Rec) (lim : Z)
    (ups : list R) :
  ∀ (c : Z) (fuel : nat),
    (length ups < fuel)%nat →
    let k := Z.to_nat (lim - (c + 1)) in
    gen_to_list build fuel (mkGen ups lim c AtYield)
    = Some (map build (take k ups),
            mkGen (drop (S k) ups) lim
                  (c + 1 + Z.of_nat (min k (length ups))) Returned).
Proof.
  induction ups as [|r rest IH]; intros c fuel Hfuel k.
  - destruct fuel as [|fuel]; [simpl in Hfuel; lia|].
    subst k. simpl. rewrite take_nil. simpl.
    do 3 f_equal; lia.
  - destruct fuel as [|fuel]; [simpl in Hfuel; lia|].
    simpl in Hfuel.
    change (gen_to_list build (S fuel) (mkGen (r :: rest) lim c AtYield))
      with (match loop_turn build (r :: rest) lim (c + 1) with
            | (None, g') => Some ([], g')
            | (Some rec, g') =>
                match gen_to_list build fuel g' with
                | Some (recs, g'') => Some (rec :: recs, g'')
                | None => None
                end
            end).
    unfold loop_turn. destruct (c + 1 >=? lim)%Z eqn:E.
    + assert (k = 0%nat) as -> by (subst k; lia).
      simpl. do 3 f_equal; lia.
    + rewrite (IH (c + 1)%Z fuel) by lia.
      assert (k = S (Z.to_nat (lim - (c + 1 + 1)))) as -> by (subst k; lia).
      simpl. do 3 f_equal; lia.
Qed.

(** Running a fresh generator to exhaustion: the records of the first
    [limit] items, and one item more taken from the iterator. *)
Lemma gen_to_list_fresh {R Rec : Type} (build : R → Rec) (lim : Z)
    (ups : list R) (fuel : nat) :
  (length ups < fuel)%nat →
  gen_to_list build fuel (mkGen ups lim 0 AtStart)
  = Some (map build (take (Z.to_nat lim) ups),
          mkGen (drop (S (Z.to_nat lim)) ups) lim
                (Z.of_nat (min (Z.to_nat lim) (length ups))) Returned).
Proof.
  intros Hfuel.
  assert (gen_to_list build fuel (mkGen ups lim 0 AtStart)
          = gen_to_list build fuel (mkGen ups lim (-1) AtYield)) as ->
    by (destruct fuel; reflexivity).
  rewrite gen_to_list_at_yield by done.
  replace (lim - (-1 + 1))%Z with lim by lia.
  do 3 f_equal; lia.
Qed.

(** A consumer that asks a fresh generator for at most [limit] records has
    taken exactly as many items from the iterator as it got records. *)
Lemma gen_take_at_yield {R Rec : Type} (build : R → Rec) (lim : Z)
    (ups : list R) :
  ∀ (c : Z) (n : nat),
    (Z.of_nat n ≤ lim - (c + 1))%Z →
    ∃ c', gen_take build n (mkGen ups lim c AtYield)
          = (map build (take n ups),
             mkGen (drop n ups) lim c'
                   (if (length ups <? n)%nat then Returned else AtYield)).
Proof.
  induction ups as [|r rest IH]; intros c n Hn.
  - destruct n as [|n]; [by exists c|]. by exists (c + 1)%Z.
  - destruct n as [|n]; [by exists c|].
    change (gen_take build (S n) (mkGen (r :: rest) lim c AtYield))
      with (match loop_turn build (r :: rest) lim (c + 1) with
            | (None, g') => ([], g')
            | (Some rec, g') =>
                let '(recs, g'') := gen_take build n g' in (rec :: recs, g'')
            end).
    unfold loop_turn.
    assert ((c + 1 >=? lim)%Z = false) as -> by lia.
    destruct (IH (c + 1)%Z n ltac:(lia)) as [c' ->].
    by exists c'.
Qed.

(** C6, as stated, fails: run to exhaustion with ten items and limit 3, the
    generator yields 3 records but has taken 4 items from the iterator, so
    what is left is not what follows the first 3; with four items and limit 3
    the iterator is emptied. *)
Lemma search_publications_overread_counterexample :
  (∃ recs g',
     list_publications 11
       (search_publications (fun _ _ _ => ten_results) "test" 3 None None)
     = Some (recs, g')
     ∧ length recs = 3%nat
     ∧ length (search_query g') = 6%nat
     ∧ search_query g' ≠ drop 3 ten_results)
  ∧ (∃ recs g',
       list_publications 5
         (search_publications (fun _ _ _ => take 4 ten_results) "test" 3 None None)
       = Some (recs, g')
       ∧ length recs = 3%nat
       ∧ search_query g' = []).
Proof.
  unfold list_publications, search_publications. split.
  - eexists _, _. split; [apply gen_to_list_fresh; simpl; lia|].
    split; [reflexivity|]. split; [reflexivity|].
    intros H. apply (f_equal length) in H. simpl in H. discriminate H.
  - eexists _, _. split; [apply gen_to_list_fresh; simpl; lia|].
    split; reflexivity.
Qed.

(** C6 (amended): run to exhaustion, [search_publications] yields the records
    of the first [limit] upstream items, in order: [min(limit, n)] records for
    [n] upstream items (none for a negative limit).  The generator takes one
    item from the iterator per record it is asked for, so a consumer that
    stops after [limit] records leaves everything beyond the limit in the
    iterator; run to exhaustion, it takes one item more than it yields records
    for, which it discards, and stops there: [max(limit, 0) + 1] items, or all
    [n] when there are fewer. *)
Theorem search_publications_capped
    (search_pubs : string → option Z → option Z → list pub_result)
    (query : string) (lim : Z) (year_start year_end : option Z) (fuel : nat) :
  let ups := search_pubs query year_start year_end in
  let g := search_publications search_pubs query lim year_start year_end in
  let recs := map to_publication (take (Z.to_nat lim) ups) in
  (length ups < fuel)%nat →
  ∃ g' g'',
    list_publications fuel g = Some (recs, g')
    ∧ length recs = min (Z.to_nat lim) (length ups)
    ∧ search_query g' = drop (S (Z.to_nat lim)) ups
    ∧ pc g' = Returned
    ∧ gen_take to_publication (Z.to_nat lim) g = (recs, g'')
    ∧ search_query g'' = drop (Z.to_nat lim) ups.
Proof.
  intros ups g recs Hfuel.
  subst g. unfold list_publications, search_publications. fold ups.
  rewrite gen_to_list_fresh by done. fold recs.
  destruct (Z.to_nat lim) as [|n] eqn:En.
  - eexists _, _. split; [reflexivity|]. by repeat split.
  - assert (gen_take to_publication (S n) (mkGen ups lim 0 AtStart)
            = gen_take to_publication (S n) (mkGen ups lim (-1) AtYield)) as ->
      by reflexivity.
    destruct (gen_take_at_yield to_publication lim ups (-1) (S n) ltac:(lia))
      as [c' ->].
    eexists _, _. split; [reflexivity|].
    split; [subst recs; by rewrite length_map, length_take|].
    by repeat split.
Qed.

Lemma search_publications_capped_witness :
  (length ten_results < 11)%nat
  ∧ ∃ g' g'',
      list_publications 11
        (search_publications (fun _ _ _ => ten_results) "test" 3 None None)
      = Some (map to_publication (take 3 ten_results), g')
      ∧ length (map to_publication (take 3 ten_results)) = 3%nat
      ∧ search_query g' = drop 4 ten_results
      ∧ pc g' = Returned
      ∧ gen_take to_publication 3
          (search_publications (fun _ _ _ => ten_results) "test" 3 None None)
        = (map to_publication (take 3 ten_results), g'')
      ∧ search_query g'' = drop 3 ten_results.
Proof.
  split; [simpl; lia|].
  apply (search_publications_capped (fun _ _ _ => ten_results) "test" 3
           None None 11).
  simpl; lia.
Defined.

(** X7: [search_authors] run to exhaustion yields the author records of the
    first [limit] upstream items, in order, and has taken one item more than
    the limit from the iterator. *)
Lemma search_authors_capped
    (search_author : string → list (gmap string value))
    (query : string) (lim : Z) (fuel : nat) :
  (length (search_author query) < fuel)%nat →
  list_authors fuel (search_authors search_author query lim)
  = Some (map to_author (take (Z.to_nat lim) (search_author query)),
          mkGen (drop (S (Z.to_nat lim)) (search_author query)) lim
                (Z.of_nat (min (Z.to_nat lim) (length (search_author query))))
                Returned).
Proof. intros H. by apply gen_to_list_fresh. Qed.

(** ** Style dispatch *)

Lemma styles_lookup_none (key : string) :
  key ∉ style_names → styles_lookup key styles = None.
Proof.
  unfold style_names. rewrite !not_elem_of_cons. intros (H1 & H2 & H3 & H4 & _).
  unfold styles, styles_lookup.
  apply String.eqb_neq in H1, H2, H3, H4. by rewrite H1, H2, H3, H4.
Qed.

Lemma styles_lookup_some (key : string) :
  key ∈ style_names →
  ∃ method, styles_lookup key styles = Some method
            ∧ styles_lookup (lower key) styles = Some method.
Proof.
  unfold style_names. rewrite !elem_of_cons.
  intros [->|[->|[->|[->|H]]]]; [by eexists..|by apply elem_of_nil in H].
Qed.

(** C7: an unsupported style raises [ValueError] with a message that names
    the style as passed and lists the four options; APA and Harvard citations
    are produced for every book; but the MLA (and Chicago) citation of a book
    with two authors whose first name is empty raises [IndexError]. *)
Theorem cite_styles_and_blank_author :
  (∀ (b : Book) (style : string),
     lower style ∉ style_names →
     cite b style
     = Raise (ValueError ("Unsupported style: " +:+ style
                          +:+ ". Use: apa, mla, chicago, harvard")))
  ∧ (∀ b : Book, ∃ c h, cite b "apa" = Ok c ∧ cite b "harvard" = Ok h)
  ∧ lower "mla" ∈ style_names
  ∧ cite blank_first_author "mla" = Raise (IndexError "list index out of range")
  ∧ cite blank_first_author "chicago"
    = Raise (IndexError "list index out of range").
Proof.
  split; [|split; [|split; [|split]]].
  - intros b style H. unfold cite. by rewrite (styles_lookup_none _ H).
  - intros b. change (cite b "apa") with (cite_apa b).
    change (cite b "harvard") with (cite_harvard b).
    unfold cite_apa, cite_harvard.
    rewrite format_authors_apa_eq, format_authors_harvard_eq.
    by eexists _, _.
  - unfold style_names. change (lower "mla") with "mla". set_solver.
  - reflexivity.
  - reflexivity.
Qed.



(** ** Author details *)

(** C8: when either upstream call raises, [get_author_details] returns
    [None]; when both succeed it returns the author record read from the
    filled response, where an absent key gives 0 for the numeric fields, the
    empty list for the interests, ["Unknown"] for the name and [None] for the
    other fields. *)
Theorem get_author_details_outcome
    (search_author_id : string → outcome (gmap string value))
    (fill : gmap string value → outcome (gmap string value))
    (scholar_id : string) :
  match (result ← search_author_id scholar_id; fill result) with
  | Raise e => get_author_details search_author_id fill scholar_id = None
  | Ok result =>
      get_author_details search_author_id fill scholar_id
      = Some (Author.mk
                (default (VStr "Unknown") (result !! "name"))
                (default VNone (result !! "affiliation"))
                (default VNone (result !! "email_domain"))
                (default (VInt 0) (result !! "citedby"))
                (default (VInt 0) (result !! "hindex"))
                (default (VInt 0) (result !! "i10index"))
                (default (VList []) (result !! "interests"))
                (default VNone (result !! "scholar_id")))
  end.
Proof.
  unfold get_author_details.
  destruct (search_author_id scholar_id) as [r|e]; simpl; [|reflexivity].
  destruct (fill r) as [r'|e]; simpl; [|reflexivity].
  unfold to_author, dict_get.
  by repeat (destruct (r' !! _)).
Qed.

(** ** Further properties of the [Book] methods *)

Lemma str_take_drop (n : nat) (s : string) : str_take n s +:+ str_drop n s = s.
Proof.
  unfold str_take. revert s. induction n as [|n IH]; intros [|c s]; simpl;
    try reflexivity.
  rewrite str_app_cons. by rewrite IH.
Qed.

Lemma str_take_length (n : nat) (s : string) :
  String.length (str_take n s) = min n (String.length s).
Proof.
  unfold str_take. revert s. induction n as [|n IH]; intros [|c s]; simpl;
    try reflexivity.
  by rewrite IH.
Qed.

(** X1: The [year] property is ["n.d."] for an absent or empty date; otherwise it
    is the date cut after four characters: a prefix of the date, never longer
    than four characters, and the whole date when that is shorter. *)
Theorem year_is_date_prefix (b : Book) :
  ((published_date b = None ∨ published_date b = Some "") ∧ year b = "n.d.")
  ∨ (∃ d, published_date b = Some d ∧ d ≠ ""
          ∧ d = year b +:+ str_drop 4 d
          ∧ String.length (year b) = min 4 (String.length d)).
Proof.
  unfold year. destruct (published_date b) as [[|c d]|].
  - left. split; [by right|done].
  - right. exists (String c d). split; [done|]. split; [done|].
    split; [by rewrite str_take_drop|apply str_take_length].
  - left. split; [by left|done].
Qed.

Lemma str_or_publisher (p : option string) :
  str_or p "Publisher unknown" = publisher_text p.
Proof. by destruct p as [[|c s]|]. Qed.

(** X2: A book without authors is cited in every style under ["Unknown Author"]. *)
Theorem cite_without_authors (b : Book) :
  authors b = [] →
  cite b "apa"
  = Ok ("Unknown Author (" +:+ year b +:+ "). " +:+ title b +:+ ". "
        +:+ publisher_text (publisher b) +:+ ".")
  ∧ cite b "mla"
    = Ok ("Unknown Author. " +:+ title b +:+ ". "
          +:+ publisher_text (publisher b) +:+ ", " +:+ year b +:+ ".")
  ∧ cite b "chicago" = cite b "mla"
  ∧ cite b "harvard"
    = Ok ("Unknown Author (" +:+ year b +:+ ") " +:+ title b +:+ ". "
          +:+ publisher_text (publisher b) +:+ ".").
Proof.
  intros H.
  change (cite b "apa") with (cite_apa b).
  change (cite b "mla") with (cite_mla b).
  change (cite b "chicago") with (cite_chicago b).
  change (cite b "harvard") with (cite_harvard b).
  unfold cite_apa, cite_mla, cite_chicago, cite_harvard,
    _format_authors_chicago, _format_authors_apa, _format_authors_mla,
    _format_authors_harvard.
  rewrite H. simpl. rewrite str_or_publisher. by repeat split.
Qed.

Lemma cite_without_authors_witness :
  authors anonymous = []
  ∧ cite anonymous "apa" = Ok "Unknown Author (1000). Beowulf. Publisher unknown."
  ∧ cite anonymous "mla" = Ok "Unknown Author. Beowulf. Publisher unknown, 1000."
  ∧ cite anonymous "chicago" = cite anonymous "mla"
  ∧ cite anonymous "harvard"
    = Ok "Unknown Author (1000) Beowulf. Publisher unknown.".
Proof.
  split; [reflexivity|]. apply (cite_without_authors anonymous). reflexivity.
Defined.

(** [split] yields no token exactly for a blank string. *)
Lemma split_from_nil (tok s : string) :
  split_from tok s = [] ↔ tok = "" ∧ blank s = true.
Proof.
  revert tok. induction s as [|c s IH]; intros tok.
  - simpl. destruct tok; split; try done. by intros [? _].
  - change (blank (String c s)) with (is_space c && blank s).
    simpl. destruct (is_space c) eqn:E.
    + destruct tok as [|d tok].
      * rewrite IH. simpl. tauto.
      * split; [done|]. by intros [? _].
    + rewrite IH. simpl. split; [|by intros [_ ?]].
      intros [H _]. by destruct tok.
Qed.

Lemma split_nil (s : string) : split s = [] ↔ blank s = true.
Proof. unfold split. rewrite split_from_nil. tauto. Qed.

Lemma cite_mla_cases (b : Book) :
  if (2 <=? length (authors b))%nat && blank (hd "" (authors b)) then
    cite b "mla" = Raise (IndexError "list index out of range")
    ∧ cite b "chicago" = Raise (IndexError "list index out of range")
  else ∃ c, cite b "mla" = Ok c ∧ cite b "chicago" = Ok c.
Proof.
  change (cite b "mla") with (cite_mla b).
  change (cite b "chicago") with (cite_chicago b).
  unfold cite_chicago, _format_authors_chicago, cite_mla.
  pose proof (format_authors_mla_cases b) as H.
  destruct (authors b) as [|a0 [|a1 rest]].
  - destruct H as [a ->]. by eexists.
  - destruct H as [a ->]. by eexists.
  - change (2 <=? length (a0 :: a1 :: rest))%nat with true.
    change (hd "" (a0 :: a1 :: rest)) with a0. cbv [andb].
    destruct H as [[E ->]|[E [a ->]]].
    + apply split_nil in E. rewrite E. by split.
    + destruct (blank a0) eqn:Eb; [by apply split_nil in Eb|]. by eexists.
Qed.

(** X3: The MLA and Chicago citations fail, with [IndexError], exactly for the
    books with two or more authors whose first author name is blank; every
    other book gets one and the same MLA and Chicago citation. *)
Theorem cite_mla_fails_iff_blank_first (b : Book) :
  if (2 <=? length (authors b))%nat && blank (hd "" (authors b)) then
    cite b "mla" = Raise (IndexError "list index out of range")
    ∧ cite b "chicago" = Raise (IndexError "list index out of range")
  else ∃ c, cite b "mla" = Ok c ∧ cite b "chicago" = Ok c.
Proof.
  pose proof (cite_mla_cases b) as H.
  destruct ((2 <=? length (authors b))%nat && blank (hd "" (authors b)));
    exact H.
Qed.

(** X4: For a style among the four keys, in any letter case, [cite] never raises
    [ValueError]: it returns a citation, or raises the [IndexError] of the
    MLA author string. *)
Theorem cite_known_style_outcome (b : Book) (style : string) :
  lower style ∈ style_names →
  (∃ c, cite b style = Ok c)
  ∨ cite b style = Raise (IndexError "list index out of range").
Proof.
  pose proof (cite_mla_cases b) as Hm.
  unfold style_names. rewrite !elem_of_cons.
  intros [E|[E|[E|[E|E]]]]; [..|by apply elem_of_nil in E].
  - assert (cite b style = cite_apa b) as -> by (unfold cite; by rewrite E).
    left. unfold cite_apa. rewrite format_authors_apa_eq. by eexists.
  - assert (cite b style = cite b "mla") as -> by (unfold cite; by rewrite E).
    destruct ((2 <=? length (authors b))%nat && blank (hd "" (authors b))).
    + right. apply Hm.
    + left. destruct Hm as (c & Hm & _). by exists c.
  - assert (cite b style = cite b "chicago") as ->
      by (unfold cite; by rewrite E).
    destruct ((2 <=? length (authors b))%nat && blank (hd "" (authors b))).
    + right. apply Hm.
    + left. destruct Hm as (c & _ & Hm). by exists c.
  - assert (cite b style = cite_harvard b) as ->
      by (unfold cite; by rewrite E).
    left. unfold cite_harvard. rewrite format_authors_harvard_eq. by eexists.
Qed.

Lemma cite_known_style_outcome_witness :
  lower "Chicago" ∈ style_names
  ∧ ((∃ c, cite two_authors "Chicago" = Ok c)
     ∨ cite two_authors "Chicago" = Raise (IndexError "list index out of range")).
Proof.
  assert (lower "Chicago" ∈ style_names) as H
    by (apply (list_elem_of_lookup_2 _ 2%nat); reflexivity).
  split; [exact H|]. exact (cite_known_style_outcome two_authors "Chicago" H).
Defined.

(** A string that ends in a non-empty string ends as that one does. *)
Lemma endswith_app (p s : string) (c : ascii) :
  s ≠ "" → endswith (p +:+ s) (String c "") = endswith s (String c "").
Proof.
  intros Hs. induction p as [|d p IH]; [reflexivity|].
  rewrite str_app_cons.
  change (endswith (String d (p +:+ s)) (String c ""))
    with (String.eqb (String d (p +:+ s)) (String c "")
          || endswith (p +:+ s) (String c "")).
  rewrite IH.
  assert (String.eqb (String d (p +:+ s)) (String c "") = false) as ->; [|done].
  apply String.eqb_neq. intros H. inversion H as [[H1 H2]].
  destruct p; [by destruct s|discriminate H2].
Qed.



(** X6: With two authors of which the first is not blank, the MLA author string
    is the first author, [", and "], and the second author's name as it
    stands; the citation continues after a single space exactly when the
    second author's name ends in a period, and after [". "] otherwise. *)
Theorem cite_mla_two_authors (b : Book) (a0 a1 first : string) :
  authors b = [a0; a1] →
  mla_first_formatted a0 = Ok first →
  _format_authors_mla b = Ok (first +:+ ", and " +:+ a1)
  ∧ cite b "mla"
    = Ok (mla_template (first +:+ ", and " +:+ a1)
            (if endswith a1 "." then " " else ". ")
            (title b) (publisher_text (publisher b)) (year b)).
Proof.
  intros Ha Hf.
  assert (_format_authors_mla b = Ok (first +:+ ", and " +:+ a1)) as Hm.
  { unfold _format_authors_mla. rewrite Ha.
    change (length [a0; a1] =? 1)%nat with false.
    change (length [a0; a1] =? 2)%nat with true. cbv iota.
    change (list_get [a0; a1] 0) with (Ok a0).
    change (Ok a0 ≫= ?k) with (k a0). cbv beta. rewrite Hf. reflexivity. }
  split; [exact Hm|].
  change (cite b "mla") with (cite_mla b). unfold cite_mla. rewrite Hm.
  change (Ok ?x ≫= ?k) with (k x). cbv beta zeta.
  rewrite str_or_publisher.
  assert (endswith (first +:+ ", and " +:+ a1) "." = endswith a1 ".") as ->.
  { destruct a1 as [|c a1].
    - change (", and " +:+ "") with ", and ".
      rewrite (endswith_app first ", and " ".") by done. reflexivity.
    - rewrite <- str_app_assoc. by rewrite endswith_app. }
  reflexivity.
Qed.

Lemma cite_mla_two_authors_witness :
  authors two_authors = ["William Strunk Jr."; "E. B. White"]
  ∧ mla_first_formatted "William Strunk Jr." = Ok "Jr., William Strunk"
  ∧ _format_authors_mla two_authors = Ok "Jr., William Strunk, and E. B. White"
  ∧ cite two_authors "mla"
    = Ok "Jr., William Strunk, and E. B. White. Elements. Macmillan, 1959.".
Proof.
  split; [reflexivity|]. split; [reflexivity|].
  apply (cite_mla_two_authors two_authors "William Strunk Jr." "E. B. White"
           "Jr., William Strunk"); reflexivity.
Defined.

(** ** Further properties of the capped generators *)

Lemma search_authors_capped_witness :
  (length author_results < 3)%nat
  ∧ list_authors 3 (search_authors (fun _ => author_results) "lovelace" 1)
    = Some (map to_author (take 1 author_results),
            mkGen [] 1 1 Returned).
Proof.
  split; [simpl; lia|].
  apply (search_authors_capped (fun _ => author_results) "lovelace" 1 3).
  simpl; lia.
Defined.

(** Asking a generator that is suspended at its [yield] for [n] records. *)
Lemma gen_take_any {R Rec : Type} (build : R → Rec) (lim : Z) (n : nat) :
  ∀ (ups : list R) (c : Z),
    let k := Z.to_nat (lim - (c + 1)) in
    ∃ g', gen_take build n (mkGen ups lim c AtYield)
          = (map build (take (min n k) ups), g')
          ∧ search_query g' = drop (min n (S k)) ups.
Proof.
  induction n as [|n IH]; intros ups c k.
  - eexists. split; reflexivity.
  - destruct ups as [|r rest].
    + exists (mkGen [] lim (c + 1) Returned).
      split; [by rewrite take_nil|by rewrite drop_nil].
    + change (gen_take build (S n) (mkGen (r :: rest) lim c AtYield))
        with (match loop_turn build (r :: rest) lim (c + 1) with
              | (None, g') => ([], g')
              | (Some rec, g') =>
                  let '(recs, g'') := gen_take build n g' in (rec :: recs, g'')
              end).
      unfold loop_turn. destruct (c + 1 >=? lim)%Z eqn:E.
      * assert (k = 0%nat) as -> by (subst k; lia).
        eexists. split; [by rewrite Nat.min_0_r|].
        by replace (S n `min` 1)%nat with 1%nat by lia.
      * assert (k = S (Z.to_nat (lim - (c + 1 + 1)))) as -> by (subst k; lia).
        destruct (IH rest (c + 1)%Z) as (g' & -> & Hg').
        exists g'. split; [reflexivity|]. exact Hg'.
Qed.

(** X8: A consumer that asks [search_publications] or [search_authors] for [n]
    records gets the records of the first [min(n, max(limit, 0))] upstream
    items (of all of them when there are fewer), in upstream order, and the
    generator has then taken [min(n, max(limit, 0) + 1)] items from the
    upstream iterator (all of them when there are fewer): never more than one
    item beyond the records it may yield, and never more items than records
    asked for. *)
Theorem generators_take_bounded
    (search_pubs : string → option Z → option Z → list pub_result)
    (search_author : string → list (gmap string value))
    (query : string) (lim : Z) (year_start year_end : option Z) (n : nat) :
  (∃ g',
     gen_take to_publication n
       (search_publications search_pubs query lim year_start year_end)
     = (map to_publication
          (take (min n (Z.to_nat lim)) (search_pubs query year_start year_end)),
        g')
     ∧ search_query g'
       = drop (min n (S (Z.to_nat lim))) (search_pubs query year_start year_end))
  ∧ (∃ g',
       gen_take to_author n (search_authors search_author query lim)
       = (map to_author (take (min n (Z.to_nat lim)) (search_author query)), g')
       ∧ search_query g'
         = drop (min n (S (Z.to_nat lim))) (search_author query)).
Proof.
  unfold search_publications, search_authors. split.
  - destruct n as [|n]; [eexists; split; reflexivity|].
    destruct (gen_take_any to_publication lim (S n)
                (search_pubs query year_start year_end) (-1)) as (g' & H1 & H2).
    replace (lim - (-1 + 1))%Z with lim in * by lia.
    exists g'. split; [|exact H2]. rewrite <- H1. reflexivity.
  - destruct n as [|n]; [eexists; split; reflexivity|].
    destruct (gen_take_any to_author lim (S n) (search_author query) (-1))
      as (g' & H1 & H2).
    replace (lim - (-1 + 1))%Z with lim in * by lia.
    exists g'. split; [|exact H2]. rewrite <- H1. reflexivity.
Qed.

(** ** Properties of the Google Books request *)

Lemma get_api_key_unset (environ : gmap string string) :
  truthy_str (environ !! "GOOGLE_BOOKS_API_KEY") = false →
  get_api_key environ
  = Raise (ValueError
             ("GOOGLE_BOOKS_API_KEY environment variable not set. "
              +:+ "Get an API key from https://console.developers.google.com/")).
Proof.
  intros H. unfold get_api_key.
  by destruct (environ !! "GOOGLE_BOOKS_API_KEY") as [[|c k]|].
Qed.

(** X9: Without an API key in the environment (the variable unset or empty),
    [search_books] raises [ValueError] whatever the query, the limit and the
    network would answer. *)
Theorem search_books_without_key (environ : gmap string string)
    (urlencode : list (string * value) → string)
    (urlopen_json : string → outcome books_response)
    (query : string) (limit : Z) :
  truthy_str (environ !! "GOOGLE_BOOKS_API_KEY") = false →
  search_books environ urlencode urlopen_json query limit
  = Raise (ValueError
             ("GOOGLE_BOOKS_API_KEY environment variable not set. "
              +:+ "Get an API key from https://console.developers.google.com/")).
Proof.
  intros H. unfold search_books. by rewrite (get_api_key_unset _ H).
Qed.

Lemma search_books_without_key_witness :
  truthy_str ((<["GOOGLE_BOOKS_API_KEY" := ""]> ∅ : gmap string string)
                !! "GOOGLE_BOOKS_API_KEY") = false
  ∧ search_books (<["GOOGLE_BOOKS_API_KEY" := ""]> ∅) show_max_results
      two_volumes "python" 5
    = Raise (ValueError
               ("GOOGLE_BOOKS_API_KEY environment variable not set. "
                +:+ "Get an API key from https://console.developers.google.com/")).
Proof.
  split; [reflexivity|].
  apply (search_books_without_key (<["GOOGLE_BOOKS_API_KEY" := ""]> ∅)
           show_max_results two_volumes "python" 5).
  reflexivity.
Defined.

(** X10: With an API key, [search_books] opens exactly one URL, the base URL
    followed by [?] and the encoded parameters [q] = the query, [key] = the key
    and [maxResults] = [min(limit, 40)]; its outcome is the exception of that
    request, or the books of the answer.  So the request never asks for more
    than 40 results, and every limit of 40 or more has the outcome of the
    limit 40. *)
Theorem search_books_limit_capped (environ : gmap string string)
    (urlencode : list (string * value) → string)
    (urlopen_json : string → outcome books_response)
    (query api_key : string) (limit : Z) :
  get_api_key environ = Ok api_key →
  search_books environ urlencode urlopen_json query limit
  = match
      urlopen_json
        (GOOGLE_BOOKS_API_URL +:+ "?"
         +:+ urlencode [("q", VStr query); ("key", VStr api_key);
                        ("maxResults", VInt (Z.min limit 40))])
    with
    | Ok data => Ok (map to_book (default [] (resp_items data)))
    | Raise e => Raise e
    end
  ∧ (Z.min limit 40 ≤ 40)%Z
  ∧ search_books environ urlencode urlopen_json query (Z.max limit 40)
    = search_books environ urlencode urlopen_json query 40.
Proof.
  intros Hk. split; [|split].
  - unfold search_books. rewrite Hk.
    change (Ok api_key ≫= ?k) with (k api_key). cbv beta zeta.
    by destruct (urlopen_json _).
  - lia.
  - unfold search_books.
    by replace (Z.min (Z.max limit 40) 40) with (Z.min 40 40) by lia.
Qed.

Lemma search_books_limit_capped_witness :
  get_api_key environ_with_key = Ok "secret"
  ∧ search_books environ_with_key show_max_results
      (fun url => Raise (mkExn "URLError" url)) "python" 1
    = Raise (mkExn "URLError"
               "https://www.googleapis.com/books/v1/volumes?maxResults=1")
  ∧ (Z.min 1 40 ≤ 40)%Z
  ∧ search_books environ_with_key show_max_results
      (fun url => Raise (mkExn "URLError" url)) "python" (Z.max 1 40)
    = search_books environ_with_key show_max_results
        (fun url => Raise (mkExn "URLError" url)) "python" 40.
Proof.
  split; [reflexivity|].
  exact (search_books_limit_capped environ_with_key show_max_results
           (fun url => Raise (mkExn "URLError" url)) "python" "secret" 1
           eq_refl).
Defined.

(** X11: [search_books] yields one book per item of the response, in order: the
    limit goes into the request only and does not cut the items that the
    response holds. *)
Theorem search_books_one_book_per_item (environ : gmap string string)
    (urlencode : list (string * value) → string)
    (urlopen_json : string → outcome books_response)
    (query api_key : string) (limit : Z) (data : books_response) :
  get_api_key environ = Ok api_key →
  urlopen_json
    (GOOGLE_BOOKS_API_URL +:+ "?"
     +:+ urlencode [("q", VStr query); ("key", VStr api_key);
                    ("maxResults", VInt (Z.min limit 40))])
  = Ok data →
  ∃ books,
    search_books environ urlencode urlopen_json query limit = Ok books
    ∧ length books = length (default [] (resp_items data))
    ∧ Forall2 (fun item book => book = to_book item)
              (default [] (resp_items data)) books.
Proof.
  intros Hk Hd. unfold search_books. rewrite Hk.
  change (Ok api_key ≫= ?k) with (k api_key). cbv beta zeta. rewrite Hd.
  eexists. split; [reflexivity|]. split; [by rewrite length_map|].
  induction (default [] (resp_items data)); by constructor.
Qed.

Lemma search_books_one_book_per_item_witness :
  get_api_key environ_with_key = Ok "secret"
  ∧ two_volumes
      (GOOGLE_BOOKS_API_URL +:+ "?"
       +:+ show_max_results [("q", VStr "python"); ("key", VStr "secret");
                             ("maxResults", VInt (Z.min 1 40))])
    = Ok (mkBooksResponse (Some [volume_with_isbns; mkVolumeItem None]))
  ∧ ∃ books,
      search_books environ_with_key show_max_results two_volumes "python" 1
      = Ok books
      ∧ length books = 2%nat
      ∧ Forall2 (fun item book => book = to_book item)
                [volume_with_isbns; mkVolumeItem None] books.
Proof.
  split; [reflexivity|]. split; [reflexivity|].
  apply (search_books_one_book_per_item environ_with_key show_max_results
           two_volumes "python" "secret" 1
           (mkBooksResponse (Some [volume_with_isbns; mkVolumeItem None])));
    reflexivity.
Defined.

(** The loop over the identifiers keeps, for each of the two types, the
    identifier of the last entry of that type. *)
Lemma isbn_loop (ids : list identifier) :
  ∀ a10 a13 : option string,
    fold_left isbn_turn ids (a10, a13)
    = (match last (filter (fun i => id_type i = Some "ISBN_10") ids) with
       | Some i => id_identifier i
       | None => a10
       end,
       match last (filter (fun i => id_type i = Some "ISBN_13") ids) with
       | Some i => id_identifier i
       | None => a13
       end).
Proof.
  induction ids as [|x ids IH]; intros a10 a13; [reflexivity|].
  change (fold_left isbn_turn (x :: ids) (a10, a13))
    with (fold_left isbn_turn ids (isbn_turn (a10, a13) x)).
  unfold isbn_turn. rewrite !filter_cons.
  destruct (decide (id_type x = Some "ISBN_10")) as [E10|N10].
  - rewrite (bool_decide_eq_true_2 _ E10).
    destruct (decide (id_type x = Some "ISBN_13")) as [E13|N13];
      [rewrite E10 in E13; discriminate E13|].
    rewrite IH, last_cons.
    by destruct (last (filter _ ids)).
  - rewrite (bool_decide_eq_false_2 _ N10).
    destruct (decide (id_type x = Some "ISBN_13")) as [E13|N13].
    + rewrite (bool_decide_eq_true_2 _ E13), IH, last_cons.
      by destruct (last (filter (fun i => id_type i = Some "ISBN_13") ids)).
    + by rewrite (bool_decide_eq_false_2 _ N13), IH.
Qed.

(** X12: The ISBN-10 and the ISBN-13 of a mapped book are the identifiers of the
    last [ISBN_10] entry and of the last [ISBN_13] entry of the item's
    identifier list; they are absent when there is no such entry (or when that
    entry has no identifier), and entries of other types change nothing. *)
Theorem to_book_keeps_last_isbns (item : volume_item) :
  let ids :=
    default [] (vi_industryIdentifiers
                  (default empty_volume_info (it_volumeInfo item))) in
  isbn_10 (to_book item)
  = last (filter (fun i => id_type i = Some "ISBN_10") ids) ≫= id_identifier
  ∧ isbn_13 (to_book item)
    = last (filter (fun i => id_type i = Some "ISBN_13") ids) ≫= id_identifier.
Proof.
  intros ids. unfold to_book. fold ids. rewrite isbn_loop.
  split; simpl.
  - by destruct (last (filter (fun i => id_type i = Some "ISBN_10") ids)).
  - by destruct (last (filter (fun i => id_type i = Some "ISBN_13") ids)).
Qed.

Example volume_with_isbns_book :
  isbn_10 (to_book volume_with_isbns) = Some "0000000001"
  ∧ isbn_13 (to_book volume_with_isbns) = Some "9780000000002"
  ∧ isbn (to_book volume_with_isbns) = Some "9780000000002"
  ∧ cite (to_book (mkVolumeItem None)) "apa"
    = Ok "Unknown Author (n.d.). Unknown. Publisher unknown.".
Proof. by repeat split. Qed.

(** ** Properties of the command line layer *)

Lemma prefix_drop (a s : string) :
  String.prefix a s = true → s = a +:+ str_drop (String.length a) s.
Proof.
  revert s. induction a as [|c a IH]; intros s H; [by destruct s|].
  destruct s as [|d s]; [discriminate H|]. simpl in H.
  destruct (Ascii.ascii_dec c d) as [->|]; [|discriminate H].
  rewrite str_app_cons. simpl. f_equal. by apply IH.
Qed.

Lemma split_sep_go_nonempty (fuel : nat) (sep tok s : string) :
  split_sep_go fuel sep tok s ≠ [].
Proof.
  revert tok s. induction fuel as [|fuel IH]; intros tok s;
    [intros H; discriminate H|].
  destruct s as [|c s]; [intros H; discriminate H|].
  change (split_sep_go (S fuel) sep tok (String c s))
    with (if String.prefix sep (String c s)
          then tok :: split_sep_go fuel sep ""
                        (str_drop (String.length sep) (String c s))
          else split_sep_go fuel sep (tok +:+ String c EmptyString) s).
  destruct (String.prefix sep (String c s));
    [intros H; discriminate H|apply IH].
Qed.

Lemma join_cons_nonempty (sep p : string) (rest : list string) :
  rest ≠ [] → join sep (p :: rest) = p +:+ sep +:+ join sep rest.
Proof. by destruct rest. Qed.

(** Joining the pieces with the separator gives the string back. *)
Lemma join_split_sep_go (fuel : nat) (sep : string) :
  ∀ tok s, join sep (split_sep_go fuel sep tok s) = tok +:+ s.
Proof.
  induction fuel as [|fuel IH]; intros tok s; [reflexivity|].
  destruct s as [|c s]; [simpl; by rewrite str_app_nil_r|].
  change (split_sep_go (S fuel) sep tok (String c s))
    with (if String.prefix sep (String c s)
          then tok :: split_sep_go fuel sep ""
                        (str_drop (String.length sep) (String c s))
          else split_sep_go fuel sep (tok +:+ String c EmptyString) s).
  destruct (String.prefix sep (String c s)) eqn:E.
  - rewrite join_cons_nonempty by apply split_sep_go_nonempty.
    rewrite IH, str_app_nil_l. by rewrite <- (prefix_drop _ _ E).
  - rewrite IH. by rewrite str_app_assoc.
Qed.

Lemma join_split_sep (sep s : string) : join sep (split_sep sep s) = s.
Proof. unfold split_sep. by rewrite join_split_sep_go. Qed.

(** A string that holds the separator is cut into two pieces at least. *)
Lemma split_sep_go_two (sep : string) (fuel : nat) :
  sep ≠ "" →
  ∀ tok s, (String.length s < fuel)%nat → str_contains sep s = true →
           (2 ≤ length (split_sep_go fuel sep tok s))%nat.
Proof.
  intros Hsep. induction fuel as [|fuel IH]; intros tok s Hlen Hc; [lia|].
  destruct s as [|c s].
  - simpl in Hc. destruct sep; [done|discriminate Hc].
  - change (split_sep_go (S fuel) sep tok (String c s))
      with (if String.prefix sep (String c s)
            then tok :: split_sep_go fuel sep ""
                          (str_drop (String.length sep) (String c s))
            else split_sep_go fuel sep (tok +:+ String c EmptyString) s).
    change (str_contains sep (String c s))
      with (String.prefix sep (String c s) || str_contains sep s) in Hc.
    destruct (String.prefix sep (String c s)) eqn:E.
    + pose proof (split_sep_go_nonempty fuel sep ""
                    (str_drop (String.length sep) (String c s))) as Hne.
      destruct (split_sep_go fuel sep "" _); [done|simpl; lia].
    + apply IH; [simpl in Hlen; lia|exact Hc].
Qed.

Lemma split_sep_two (sep s : string) :
  sep ≠ "" → str_contains sep s = true → (2 ≤ length (split_sep sep s))%nat.
Proof. intros H1 H2. apply split_sep_go_two; [done|lia|done]. Qed.

Lemma term_group_two (terms : list string) :
  (2 ≤ length terms)%nat →
  term_group terms = ["(" +:+ join " OR " terms +:+ ")"].
Proof. destruct terms as [|t [|u rest]]; simpl; [lia..|done]. Qed.

Lemma map_strip_stable (pieces : list string) :
  Forall (fun t => strip t = t) pieces → map strip pieces = pieces.
Proof. induction 1 as [|t l Ht Hl IH]; simpl; [done|]. by rewrite Ht, IH. Qed.

(** X13: [search_cmd], when [--stdin] is not blocked by a terminal, works on
    the effective query: the stripped standard input under [--stdin], the
    argument otherwise.  An absent or empty effective query ends the command
    with status 1 and the two lines about the missing query.  A non-empty one
    is searched for as typed when there is no [--exact], no [--exclude] and no
    non-empty [--intitle].  With one of these options, and when the pieces of
    the query between [" OR "] have no whitespace at their ends, the query goes
    into the built query unchanged: in parentheses when it holds [" OR "], bare
    otherwise, followed by the phrases, the title filter and the exclusions. *)
Theorem search_cmd_final_query_keeps_query (query : option string)
    (exact exclude : list string) (intitle : option string)
    (stdin stdin_isatty : bool) (stdin_text : string) :
  stdin && stdin_isatty = false →
  let effective := if stdin then Some (strip stdin_text) else query in
  let result :=
    search_cmd_final_query query exact exclude intitle stdin stdin_isatty
      stdin_text in
  let options :=
    truthy_list exact || truthy_list exclude || truthy_str intitle in
  (truthy_str effective = false →
   result
   = Exit 1 ["Error: Missing query argument";
             "Fix: Provide a search query, e.g.: google-scholar-tool search 'machine learning'"])
  ∧ (∀ name : string,
       effective = Some name → name ≠ "" →
       (options = false → result = Proceed name)
       ∧ (options = true →
          (str_contains " OR " name = true →
           Forall (fun t => strip t = t) (split_sep " OR " name)) →
          result
          = Proceed
              (and_group ((if str_contains " OR " name
                           then "(" +:+ name +:+ ")" else name)
                          :: map (quote_if has_space) exact)
               +:+ intitle_suffix intitle +:+ exclusion_suffixes exclude))).
Proof.
  intros Hin effective result options.
  assert (stdin_query stdin stdin_isatty stdin_text query
            "Fix: echo 'query' | google-scholar-tool search --stdin"
          = Proceed effective) as Hs.
  { unfold stdin_query. subst effective.
    by destruct stdin, stdin_isatty; try discriminate Hin. }
  subst result. unfold search_cmd_final_query. rewrite Hs. clear Hs.
  fold options. split.
  - intros He. by destruct effective as [[|c e]|].
  - intros name -> Hname. destruct name as [|c name]; [done|].
    set (q := String c name) in *. split.
    + intros ->. reflexivity.
    + intros -> Hstrip. cbv zeta. f_equal. rewrite build_query_shape.
      assert (default [] (if truthy_list exact then Some exact else None)
              = exact) as -> by (by destruct exact).
      assert (default [] (if truthy_list exclude then Some exclude else None)
              = exclude) as -> by (by destruct exclude).
      assert (map (quote_if (str_contains " ")) exact
              = map (quote_if has_space) exact) as ->.
      { apply map_ext. intros p. unfold quote_if.
        by rewrite has_space_contains. }
      do 3 f_equal. unfold search_terms.
      destruct (str_contains " OR " q) eqn:E; [|reflexivity].
      rewrite (map_strip_stable _ (Hstrip eq_refl)).
      rewrite term_group_two by (by apply split_sep_two).
      by rewrite join_split_sep.
Qed.

Lemma search_cmd_final_query_keeps_query_witness :
  false && false = false
  ∧ search_cmd_final_query None ["survey"] [] None false false ""
    = Exit 1 ["Error: Missing query argument";
              "Fix: Provide a search query, e.g.: google-scholar-tool search 'machine learning'"]
  ∧ search_cmd_final_query (Some "a  OR b") [] [] (Some "") false false ""
    = Proceed "a  OR b"
  ∧ search_cmd_final_query (Some or_query) ["survey"] ["patent"] None
      false false ""
    = Proceed "(deep learning OR neural networks) AND survey -patent".
Proof.
  assert ("a  OR b" ≠ "") as Hne1 by discriminate.
  assert (or_query ≠ "") as Hne2 by discriminate.
  assert (str_contains " OR " or_query = true →
          Forall (fun t => strip t = t) (split_sep " OR " or_query)) as Hstrip.
  { intros _. vm_compute. repeat constructor. }
  split; [reflexivity|]. split; [|split].
  - exact (proj1 (search_cmd_final_query_keeps_query None ["survey"] [] None
                    false false "" eq_refl) eq_refl).
  - exact (proj1 (proj2 (search_cmd_final_query_keeps_query (Some "a  OR b")
                           [] [] (Some "") false false "" eq_refl)
                    "a  OR b" eq_refl Hne1) eq_refl).
  - exact (proj2 (proj2 (search_cmd_final_query_keeps_query (Some or_query)
                           ["survey"] ["patent"] None false false "" eq_refl)
                    or_query eq_refl Hne2) eq_refl Hstrip).
Defined.

Lemma has_char_app (c : ascii) (s t : string) :
  has_char c (s +:+ t) = has_char c s || has_char c t.
Proof.
  unfold has_char. induction s as [|d s IH]; [reflexivity|].
  rewrite str_app_cons. simpl. rewrite IH. by rewrite orb_assoc.
Qed.

Lemma prefix_app (u q : string) : String.prefix u (u +:+ q) = true.
Proof.
  induction u as [|c u IH]; [by destruct q|].
  rewrite str_app_cons. simpl. by destruct (Ascii.ascii_dec c c).
Qed.

Lemma str_contains_prefix (u s : string) :
  String.prefix u s = true → str_contains u s = true.
Proof.
  intros H. destruct s as [|c s].
  - destruct u; [reflexivity|discriminate H].
  - change (str_contains u (String c s))
      with (String.prefix u (String c s) || str_contains u s).
    by rewrite H.
Qed.

Lemma str_contains_app (u p q : string) :
  str_contains u (p +:+ u +:+ q) = true.
Proof.
  induction p as [|c p IH].
  - rewrite str_app_nil_l. apply str_contains_prefix, prefix_app.
  - rewrite str_app_cons.
    change (str_contains u (String c (p +:+ u +:+ q)))
      with (String.prefix u (String c (p +:+ u +:+ q))
            || str_contains u (p +:+ u +:+ q)).
    rewrite IH. apply orb_true_r.
Qed.

Lemma str_contains_self (u : string) : str_contains u u = true.
Proof.
  apply str_contains_prefix. rewrite <- (str_app_nil_r u) at 2.
  apply prefix_app.
Qed.

(** X14: In every mode and for every URL and text, the result of [hyperlink]
    contains the URL.  When standard output is no terminal, or [NO_COLOR] is
    set to a non-empty value, the result is plain text: for a URL and a text
    without the escape character, it has no escape character. *)
Theorem hyperlink_plain (isatty : bool) (environ : gmap string string)
    (url : string) (text : option string) :
  str_contains url (hyperlink isatty environ url text) = true
  ∧ (negb isatty || truthy_str (environ !! "NO_COLOR") = true →
     has_char (ascii_of_nat 27) url = false →
     has_char (ascii_of_nat 27) (default "" text) = false →
     has_char (ascii_of_nat 27) (hyperlink isatty environ url text) = false).
Proof.
  unfold hyperlink. split.
  - destruct (negb isatty || truthy_str (environ !! "NO_COLOR")).
    + destruct text as [[|c t]|]; cbv [str_or truthy_str];
        try apply str_contains_self.
      rewrite <- str_app_assoc. apply str_contains_app.
    + cbv zeta. rewrite <- (str_app_assoc esc "]8;;"). apply str_contains_app.
  - intros Hplain Hurl Htext. rewrite Hplain. cbv iota zeta.
    destruct text as [[|c t]|]; simpl; try exact Hurl.
    simpl in Htext. by rewrite !has_char_app, Hurl, Htext.
Qed.

Lemma hyperlink_plain_witness :
  str_contains "https://example.com/paper"
    (hyperlink true ∅ "https://example.com/paper" (Some "Paper")) = true
  ∧ negb true || truthy_str ((<["NO_COLOR" := "1"]> ∅ : gmap string string)
                               !! "NO_COLOR") = true
  ∧ has_char (ascii_of_nat 27) "https://example.com/paper" = false
  ∧ has_char (ascii_of_nat 27) (default "" (Some "Paper")) = false
  ∧ has_char (ascii_of_nat 27)
      (hyperlink true (<["NO_COLOR" := "1"]> ∅) "https://example.com/paper"
         (Some "Paper")) = false.
Proof.
  split; [|split; [|split; [|split]]].
  - exact (proj1 (hyperlink_plain true ∅ "https://example.com/paper"
                    (Some "Paper"))).
  - reflexivity.
  - reflexivity.
  - reflexivity.
  - exact (proj2 (hyperlink_plain true (<["NO_COLOR" := "1"]> ∅)
                    "https://example.com/paper" (Some "Paper"))
             eq_refl eq_refl eq_refl).
Defined.

Example hyperlink_plain_text :
  hyperlink false ∅ "https://example.com/paper" (Some "Paper")
  = "Paper (https://example.com/paper)".
Proof. reflexivity. Qed.

(** X15: With no terms and no exact phrases the query consists of the suffixes
    only: it is empty exactly when there is neither a non-empty intitle nor an
    exclusion term, and otherwise it begins with a space. *)
Theorem build_query_without_terms (exclude_terms : option (list string))
    (intitle : option string) :
  let q := build_query [] None exclude_terms intitle in
  q = build_query [] (Some []) exclude_terms intitle
  ∧ q = intitle_suffix intitle +:+ exclusion_suffixes (default [] exclude_terms)
  ∧ (if truthy_str intitle || truthy_list (default [] exclude_terms)
     then ∃ rest, q = " " +:+ rest
     else q = "").
Proof.
  intros q. subst q. rewrite !build_query_shape. simpl.
  split; [reflexivity|]. split; [reflexivity|].
  destruct intitle as [[|c t]|]; simpl;
    destruct exclude_terms as [[|e ex]|]; simpl; try reflexivity;
    by eexists.
Qed.

Example build_query_leading_space :
  build_query [] None (Some ["education"]) None = " -education".
Proof. reflexivity. Qed.

(** ** Properties of the commands *)

(** X16: [author --scholar-id ID]: when the lookup or the fill raises, the command
    writes ["Author not found"] to standard error and exits with status 1,
    whatever query and limit were given. *)
Theorem author_cmd_lookup_fails
    (search_author_id : string → outcome (gmap string value))
    (fill : gmap string value → outcome (gmap string value))
    (search_author : string → list (gmap string value))
    (query : option string) (limit : Z) (scholar_id : string)
    (stdin stdin_isatty : bool) (stdin_text : string) (e : exn) :
  stdin && stdin_isatty = false →
  scholar_id ≠ "" →
  (result ← search_author_id scholar_id; fill result) = Raise e →
  author_cmd_results search_author_id fill search_author query limit
    (Some scholar_id) stdin stdin_isatty stdin_text
  = Exit 1 ["Author not found"].
Proof.
  intros Hin Hid Hup.
  assert (get_author_details search_author_id fill scholar_id = None) as Hd.
  { unfold get_author_details.
    destruct (search_author_id scholar_id) as [r|e1]; [|reflexivity].
    simpl in Hup. simpl. by rewrite Hup. }
  unfold author_cmd_results, stdin_query.
  destruct scholar_id as [|c sid]; [done|].
  destruct stdin, stdin_isatty; try discriminate Hin; simpl;
    rewrite ?andb_false_r, Hd; reflexivity.
Qed.

Lemma author_cmd_lookup_fails_witness :
  false && true = false
  ∧ "XrH4VJUAAAAJ" ≠ ""
  ∧ (result ← sparse_lookup "XrH4VJUAAAAJ"; failing_fill result)
    = Raise (mkExn "AttributeError" "fill")
  ∧ author_cmd_results sparse_lookup failing_fill (fun _ => author_results)
      (Some "Ada") 5 (Some "XrH4VJUAAAAJ") false true ""
    = Exit 1 ["Author not found"].
Proof.
  assert ("XrH4VJUAAAAJ" ≠ "") as Hne by discriminate.
  split; [reflexivity|]. split; [exact Hne|]. split; [reflexivity|].
  exact (author_cmd_lookup_fails sparse_lookup failing_fill
           (fun _ => author_results) (Some "Ada") 5 "XrH4VJUAAAAJ" false true
           "" (mkExn "AttributeError" "fill") eq_refl Hne eq_refl).
Defined.

(** X17: [author QUERY] without a scholar id: the results are the author records
    of the first [limit] upstream items for the effective query, which is the
    stripped standard input when [--stdin] is given with piped input and the
    argument otherwise. *)
Theorem author_cmd_by_name
    (search_author_id : string → outcome (gmap string value))
    (fill : gmap string value → outcome (gmap string value))
    (search_author : string → list (gmap string value))
    (query : option string) (limit : Z) (scholar_id : option string)
    (stdin stdin_isatty : bool) (stdin_text name : string) :
  stdin && stdin_isatty = false →
  (if stdin then Some (strip stdin_text) else query) = Some name →
  name ≠ "" →
  truthy_str scholar_id = false →
  author_cmd_results search_author_id fill search_author query limit
    scholar_id stdin stdin_isatty stdin_text
  = Proceed (map to_author (take (Z.to_nat limit) (search_author name))).
Proof.
  intros Hin Hq Hname Hid.
  assert (stdin_query stdin stdin_isatty stdin_text query
            "Fix: echo 'name' | google-scholar-tool author --stdin"
          = Proceed (Some name)) as Hs.
  { unfold stdin_query. destruct stdin, stdin_isatty; try discriminate Hin;
      simpl; by rewrite Hq. }
  unfold author_cmd_results. rewrite Hs.
  destruct name as [|c name]; [done|].
  change (truthy_str (Some (String c name))) with true.
  change (negb true && negb (truthy_str scholar_id)) with false. cbv iota.
  assert (gen_list to_author
            (search_authors search_author (str_or (Some (String c name)) "")
               limit)
          = map to_author (take (Z.to_nat limit) (search_author (String c name))))
    as Hl.
  { unfold gen_list, search_authors.
    change (str_or (Some (String c name)) "") with (String c name).
    cbv [search_query]. by rewrite gen_to_list_fresh by lia. }
  destruct scholar_id as [[|d sid]|]; try discriminate Hid; by rewrite Hl.
Qed.

Lemma author_cmd_by_name_witness :
  true && false = false
  ∧ (if true then Some (strip "  lovelace  ") else Some "ignored") = Some "lovelace"
  ∧ "lovelace" ≠ ""
  ∧ truthy_str (Some "") = false
  ∧ author_cmd_results sparse_lookup fill_unchanged (fun _ => author_results)
      (Some "ignored") 1 (Some "") true false "  lovelace  "
    = Proceed (map to_author (take 1 author_results)).
Proof.
  assert ("lovelace" ≠ "") as Hne by discriminate.
  split; [reflexivity|]. split; [reflexivity|]. split; [exact Hne|].
  split; [reflexivity|].
  exact (author_cmd_by_name sparse_lookup fill_unchanged
           (fun _ => author_results) (Some "ignored") 1 (Some "") true false
           "  lovelace  " "lovelace" eq_refl eq_refl Hne eq_refl).
Defined.

(** X18: [books QUERY] without an API key in the environment: the command writes
    the [ValueError] message after ["Error: "] to standard error and exits
    with status 1; no request is made. *)
Theorem books_cmd_without_key (environ : gmap string string)
    (urlencode : list (string * value) → string)
    (urlopen_json : string → outcome books_response)
    (is_value_error : exn → bool)
    (query : option string) (limit : Z)
    (stdin stdin_isatty : bool) (stdin_text name : string) :
  (∀ msg, is_value_error (ValueError msg) = true) →
  stdin && stdin_isatty = false →
  (if stdin then Some (strip stdin_text) else query) = Some name →
  name ≠ "" →
  truthy_str (environ !! "GOOGLE_BOOKS_API_KEY") = false →
  books_cmd_results environ urlencode urlopen_json is_value_error query limit
    stdin stdin_isatty stdin_text
  = Exit 1 ["Error: GOOGLE_BOOKS_API_KEY environment variable not set. "
            +:+ "Get an API key from https://console.developers.google.com/"].
Proof.
  intros Hve Hin Hq Hname Hkey.
  assert (stdin_query stdin stdin_isatty stdin_text query
            "Fix: echo 'query' | google-scholar-tool books --stdin"
          = Proceed (Some name)) as Hs.
  { unfold stdin_query. destruct stdin, stdin_isatty; try discriminate Hin;
      simpl; by rewrite Hq. }
  unfold books_cmd_results. rewrite Hs.
  destruct name as [|c name]; [done|].
  unfold search_books. rewrite (get_api_key_unset _ Hkey).
  change (Raise ?e ≫= _) with (@Raise (list Book) e). cbv iota beta.
  by rewrite Hve.
Qed.

Lemma books_cmd_without_key_witness :
  (∀ msg, value_error_class (ValueError msg) = true)
  ∧ false && false = false
  ∧ (if false then Some (strip "") else Some "python") = Some "python"
  ∧ "python" ≠ ""
  ∧ truthy_str ((∅ : gmap string string) !! "GOOGLE_BOOKS_API_KEY") = false
  ∧ books_cmd_results ∅ show_max_results two_volumes value_error_class
      (Some "python") 10 false false ""
    = Exit 1 ["Error: GOOGLE_BOOKS_API_KEY environment variable not set. "
              +:+ "Get an API key from https://console.developers.google.com/"].
Proof.
  assert (∀ msg, value_error_class (ValueError msg) = true) as Hve
    by (intros msg; reflexivity).
  assert ("python" ≠ "") as Hne by discriminate.
  split; [exact Hve|]. split; [reflexivity|]. split; [reflexivity|].
  split; [exact Hne|]. split; [reflexivity|].
  exact (books_cmd_without_key ∅ show_max_results two_volumes
           value_error_class (Some "python") 10 false false "" "python"
           Hve eq_refl eq_refl Hne eq_refl).
Defined.

(** X19: [books QUERY] with an API key: an exception of the request that is a
    [ValueError] ends the command with ["Error: "], its message and status 1;
    any other exception of the request is not handled and escapes. *)
Theorem books_cmd_request_error (environ : gmap string string)
    (urlencode : list (string * value) → string)
    (urlopen_json : string → outcome books_response)
    (is_value_error : exn → bool)
    (limit : Z) (name api_key : string) (e : exn) :
  name ≠ "" →
  get_api_key environ = Ok api_key →
  urlopen_json
    (GOOGLE_BOOKS_API_URL +:+ "?"
     +:+ urlencode [("q", VStr name); ("key", VStr api_key);
                    ("maxResults", VInt (Z.min limit 40))])
  = Raise e →
  books_cmd_results environ urlencode urlopen_json is_value_error (Some name)
    limit false false ""
  = if is_value_error e then Exit 1 ["Error: " +:+ exn_msg e] else Uncaught e.
Proof.
  intros Hname Hk He. unfold books_cmd_results, stdin_query.
  destruct name as [|c name]; [done|].
  unfold search_books. rewrite Hk.
  change (Ok api_key ≫= ?k) with (k api_key). cbv beta zeta. rewrite He.
  reflexivity.
Qed.

Lemma books_cmd_request_error_witness :
  "python" ≠ ""
  ∧ get_api_key environ_with_key = Ok "secret"
  ∧ (fun _ : string => @Raise books_response (mkExn "URLError" "timed out"))
      (GOOGLE_BOOKS_API_URL +:+ "?"
       +:+ show_max_results [("q", VStr "python"); ("key", VStr "secret");
                             ("maxResults", VInt (Z.min 10 40))])
    = Raise (mkExn "URLError" "timed out")
  ∧ books_cmd_results environ_with_key show_max_results
      (fun _ => Raise (mkExn "URLError" "timed out")) value_error_class
      (Some "python") 10 false false ""
    = Uncaught (mkExn "URLError" "timed out").
Proof.
  assert ("python" ≠ "") as Hne by discriminate.
  split; [exact Hne|]. split; [reflexivity|]. split; [reflexivity|].
  exact (books_cmd_request_error environ_with_key show_max_results
           (fun _ => Raise (mkExn "URLError" "timed out")) value_error_class
           10 "python" "secret" (mkExn "URLError" "timed out")
           Hne eq_refl eq_refl).
Defined.
